(** * create-tenant: a shallow embedding of the tenant provisioning script

    The development follows [src/cli/create-tenant.ts] (the interactive
    script) and the small module that memoizes the shared connection pool.

    - JavaScript strings are sequences of UTF-16 code units ([list N]).
    - [main] is an [async] function whose effects are threaded through a
      [World]: the environment, the terminal, the random source, the
      connection pool and the database behind it, and a trace of everything
      the process did.
    - A computation ends with a value, with a thrown error, with
      [process.exit], waits for ever on a terminal that stays silent, or is
      left behind when the input ends and the process has nothing more to
      do. *)

From Stdlib Require Import ZArith NArith List Bool Lia String Ascii.
From stdpp Require Import base option list gmap.
Import ListNotations.

Local Open Scope N_scope.

(** ** JavaScript strings *)

Module Js.

(** A string is the list of its UTF-16 code units. *)
Abbreviation str := (list N).

(** An ASCII literal of the source. *)
Definition lit (s : string) : str :=
  List.map N_of_ascii (list_ascii_of_string s).

(** [!s] is false exactly for the empty string. *)
Definition truthy (s : str) : bool :=
  match s with
  | [] => false
  | _ :: _ => true
  end.

(** [a || b] on strings. *)
Definition or_else (a b : str) : str :=
  if truthy a then a else b.

(** ECMAScript [WhiteSpace] and [LineTerminator] code points, the
    characters [String.prototype.trim] removes. *)
Definition is_space (c : N) : bool :=
  (c =? 0x0009) || (c =? 0x000A) || (c =? 0x000B) || (c =? 0x000C) ||
  (c =? 0x000D) || (c =? 0x0020) || (c =? 0x00A0) || (c =? 0x1680) ||
  ((0x2000 <=? c) && (c <=? 0x200A)) ||
  (c =? 0x2028) || (c =? 0x2029) || (c =? 0x202F) || (c =? 0x205F) ||
  (c =? 0x3000) || (c =? 0xFEFF).

Fixpoint trimStart (s : str) : str :=
  match s with
  | [] => []
  | c :: rest => if is_space c then trimStart rest else s
  end.

Definition trimEnd (s : str) : str :=
  rev (trimStart (rev s)).

Definition trim (s : str) : str :=
  trimEnd (trimStart s).

(** A string made of white space only (the empty string included). *)
Definition blank (s : str) : bool :=
  forallb is_space s.

(** ** Buffers *)

(** [Buffer.from(s, "utf8")]: the UTF-8 encoding of a string.  A surrogate
    pair encodes one supplementary code point; a lone surrogate is replaced
    by U+FFFD. *)
Definition is_high_surrogate (c : N) : bool := (0xD800 <=? c) && (c <=? 0xDBFF).
Definition is_low_surrogate (c : N) : bool := (0xDC00 <=? c) && (c <=? 0xDFFF).

Definition utf8_2 (c : N) : list N :=
  [N.lor 0xC0 (N.shiftr c 6); N.lor 0x80 (N.land c 0x3F)].

Definition utf8_3 (c : N) : list N :=
  [N.lor 0xE0 (N.shiftr c 12);
   N.lor 0x80 (N.land (N.shiftr c 6) 0x3F);
   N.lor 0x80 (N.land c 0x3F)].

Definition utf8_4 (c : N) : list N :=
  [N.lor 0xF0 (N.shiftr c 18);
   N.lor 0x80 (N.land (N.shiftr c 12) 0x3F);
   N.lor 0x80 (N.land (N.shiftr c 6) 0x3F);
   N.lor 0x80 (N.land c 0x3F)].

Definition replacement : list N := [0xEF; 0xBF; 0xBD].

Fixpoint utf8 (s : str) : list N :=
  match s with
  | [] => []
  | c :: rest =>
      if c <? 0x80 then c :: utf8 rest
      else if c <? 0x800 then utf8_2 c ++ utf8 rest
      else if is_high_surrogate c then
        match rest with
        | d :: rest' =>
            if is_low_surrogate d
            then utf8_4 (0x10000 + N.shiftl (c - 0xD800) 10 + (d - 0xDC00))
                   ++ utf8 rest'
            else replacement ++ utf8 rest
        | [] => replacement
        end
      else if is_low_surrogate c then replacement ++ utf8 rest
      else utf8_3 c ++ utf8 rest
  end.

(** [buf.toString("hex")]: two lower-case digits per byte. *)
Definition hex_digit (n : N) : N :=
  if n <? 10 then 48 + n else 87 + n.

Definition hex_byte (b : N) : str :=
  [hex_digit (N.shiftr (N.land b 0xFF) 4); hex_digit (N.land b 0xF)].

Definition hex (bytes : list N) : str :=
  flat_map hex_byte bytes.

Definition is_hex_digit (c : N) : bool :=
  ((48 <=? c) && (c <=? 57)) || ((97 <=? c) && (c <=? 102)).

End Js.

Abbreviation jsstring := (list N).

(** ** SHA-256 (FIPS 180-4), the hash behind [crypto.createHash("sha256")] *)

Module Sha256.

Definition w32 (x : N) : N := N.land x 0xFFFFFFFF.

Definition add32 (x y : N) : N := w32 (x + y).

Definition rotr (n x : N) : N :=
  w32 (N.lor (N.shiftr x n) (N.shiftl x (32 - n))).

Definition Ch (x y z : N) : N :=
  N.lxor (N.land x y) (N.land (N.lxor x 0xFFFFFFFF) z).

Definition Maj (x y z : N) : N :=
  N.lxor (N.lxor (N.land x y) (N.land x z)) (N.land y z).

Definition Sigma0 (x : N) : N := N.lxor (N.lxor (rotr 2 x) (rotr 13 x)) (rotr 22 x).
Definition Sigma1 (x : N) : N := N.lxor (N.lxor (rotr 6 x) (rotr 11 x)) (rotr 25 x).
Definition sigma0 (x : N) : N := N.lxor (N.lxor (rotr 7 x) (rotr 18 x)) (N.shiftr x 3).
Definition sigma1 (x : N) : N := N.lxor (N.lxor (rotr 17 x) (rotr 19 x)) (N.shiftr x 10).

(** The constants of FIPS 180-4 are defined from the first primes: the
    round constants are the first 32 bits of the fractional parts of their
    cube roots (section 4.2.2), the initial hash value those of the square
    roots of the first eight (section 5.3.3). *)
Definition primes : list N :=
  [2; 3; 5; 7; 11; 13; 17; 19; 23; 29; 31; 37; 41; 43; 47; 53;
   59; 61; 67; 71; 73; 79; 83; 89; 97; 101; 103; 107; 109; 113; 127; 131;
   137; 139; 149; 151; 157; 163; 167; 173; 179; 181; 191; 193; 197; 199; 211; 223;
   227; 229; 233; 239; 241; 251; 257; 263; 269; 271; 277; 281; 283; 293; 307; 311].

(** The integer cube root of [n], found bit by bit below [2 ^ bits]. *)
Fixpoint cube_root (bits : nat) (n r : N) : N :=
  match bits with
  | O => r
  | S b =>
      let c := r + N.shiftl 1 (N.of_nat b) in
      cube_root b n (if c * c * c <=? n then c else r)
  end.

Definition K : list N :=
  List.map (fun p => w32 (cube_root 40 (N.shiftl p 96) 0)) primes.

(** The eight working registers, also the chaining value. *)
Record Regs := mkRegs { ra : N; rb : N; rc : N; rd : N; re : N; rf : N; rg : N; rh : N }.

Definition root_word (p : N) : N := w32 (N.sqrt (N.shiftl p 64)).

Definition H0 : Regs :=
  mkRegs (root_word 2) (root_word 3) (root_word 5) (root_word 7)
         (root_word 11) (root_word 13) (root_word 17) (root_word 19).

(** Padding: one bit, zeros up to 56 modulo 64 bytes, then the length in bits
    on eight bytes, most significant first. *)
Definition be_bytes (count : nat) (x : N) : list N :=
  List.map (fun i => N.land (N.shiftr x (8 * N.of_nat i)) 0xFF) (rev (seq 0 count)).

Definition pad (msg : list N) : list N :=
  let len := length msg in
  msg ++ [0x80] ++ repeat 0 ((64 - (len + 9) mod 64) mod 64)%nat
      ++ be_bytes 8 (8 * N.of_nat len).

Fixpoint words (bytes : list N) : list N :=
  match bytes with
  | b0 :: b1 :: b2 :: b3 :: rest =>
      (N.shiftl (N.land b0 0xFF) 24 + N.shiftl (N.land b1 0xFF) 16
       + N.shiftl (N.land b2 0xFF) 8 + N.land b3 0xFF) :: words rest
  | _ => []
  end.

(** One round on the registers with constant [k] and schedule word [w]. *)
Definition round (k w : N) (s : Regs) : Regs :=
  let t1 := add32 (add32 (add32 (add32 (rh s) (Sigma1 (re s)))
                                (Ch (re s) (rf s) (rg s))) k) w in
  let t2 := add32 (Sigma0 (ra s)) (Maj (ra s) (rb s) (rc s)) in
  mkRegs (add32 t1 t2) (ra s) (rb s) (rc s) (add32 (rd s) t1) (re s) (rf s) (rg s).

(** The schedule is kept as a window of the last sixteen words, oldest first. *)
Definition next_word (win : list N) : N :=
  add32 (add32 (add32 (sigma1 (nth 14 win 0)) (nth 9 win 0))
               (sigma0 (nth 1 win 0)))
        (nth 0 win 0).

Fixpoint rounds (ks : list N) (win : list N) (s : Regs) : Regs :=
  match ks with
  | [] => s
  | k :: ks' => rounds ks' (tl win ++ [next_word win]) (round k (nth 0 win 0) s)
  end.

Definition compress (h : Regs) (block : list N) : Regs :=
  let s := rounds K block h in
  mkRegs (add32 (ra h) (ra s)) (add32 (rb h) (rb s)) (add32 (rc h) (rc s))
         (add32 (rd h) (rd s)) (add32 (re h) (re s)) (add32 (rf h) (rf s))
         (add32 (rg h) (rg s)) (add32 (rh h) (rh s)).

Fixpoint absorb (fuel : nat) (ws : list N) (h : Regs) : Regs :=
  match fuel, ws with
  | S fuel', _ :: _ => absorb fuel' (skipn 16 ws) (compress h (firstn 16 ws))
  | _, _ => h
  end.

Definition digest (msg : list N) : list N :=
  let ws := words (pad msg) in
  let h := absorb (length ws) ws H0 in
  flat_map (be_bytes 4) [ra h; rb h; rc h; rd h; re h; rf h; rg h; rh h].

End Sha256.

(** ** The database behind the pool *)

(** Rows of the three tables the script writes.  [tenant_secrets] has a
    unique [tenant_id], so it is a finite map keyed by it. *)
Record TenantRow := { tenant_id : jsstring; tenant_name : jsstring }.

Record ApiKeyRow := {
  key_tenant_id : jsstring;
  key_hash : jsstring;
  key_label : jsstring
}.

Record SecretRow := {
  ghl_api_key : jsstring;
  ghl_location_id : jsstring;
  ghl_base_url : jsstring;
  ghl_version : jsstring;
  updated_at : Z
}.

Record Tables := {
  tenants : list TenantRow;
  api_keys : list ApiKeyRow;
  tenant_secrets : gmap jsstring SecretRow
}.

(** Column defaults the script relies on; the schema is owned by the
    migrations, outside this repository's script: the identifier a new tenant
    row receives (from the position of a sequence) and the [updated_at] a new
    secret row receives (from the time of the statement). *)
Record Schema := {
  id_default : N -> jsstring;
  updated_at_default : Z -> Z
}.

(** What other sessions can see ([committed]), the sequence behind tenant
    identifiers (never rolled back) and the schema. *)
Record Database := {
  committed : Tables;
  id_seq : N;
  schema : Schema
}.

(** The statements [main] sends, with their parameters. *)
Inductive Stmt :=
| Begin
| InsertTenant (name : jsstring)
| InsertApiKey (tenantId keyHash label : jsstring)
| UpsertTenantSecret (tenantId ghlApiKey ghlLocationId ghlBaseUrl ghlVersion : jsstring)
| Commit
| Rollback.

Definition insert_tenant (id name : jsstring) (t : Tables) : Tables :=
  {| tenants := tenants t ++ [{| tenant_id := id; tenant_name := name |}];
     api_keys := api_keys t;
     tenant_secrets := tenant_secrets t |}.

Definition insert_api_key (tid h label : jsstring) (t : Tables) : Tables :=
  {| tenants := tenants t;
     api_keys := api_keys t ++
       [{| key_tenant_id := tid; key_hash := h; key_label := label |}];
     tenant_secrets := tenant_secrets t |}.

(** [insert ... on conflict (tenant_id) do update set ...]: a new row takes
    the column default for [updated_at]; on a conflict the four third-party
    fields are replaced and [updated_at] becomes [now()]. *)
Definition upsert_row (sch : Schema) (now : Z) (old : option SecretRow)
    (k loc url ver : jsstring) : SecretRow :=
  {| ghl_api_key := k;
     ghl_location_id := loc;
     ghl_base_url := url;
     ghl_version := ver;
     updated_at := match old with
                   | Some _ => now
                   | None => updated_at_default sch now
                   end |}.

Definition upsert_tenant_secret (sch : Schema) (now : Z)
    (tid k loc url ver : jsstring) (t : Tables) : Tables :=
  {| tenants := tenants t;
     api_keys := api_keys t;
     tenant_secrets :=
       <[tid := upsert_row sch now (tenant_secrets t !! tid) k loc url ver]>
         (tenant_secrets t) |}.

(** A connection holds at most one open transaction: the tables as the
    transaction sees them.  Outside a transaction a statement commits on its
    own. *)
Definition write (f : Tables -> Tables) (db : Database) (txn : option Tables)
    : Database * option Tables :=
  match txn with
  | Some t => (db, Some (f t))
  | None =>
      ({| committed := f (committed db); id_seq := id_seq db; schema := schema db |},
       None)
  end.

(** The effect of a statement the server accepts: the rows it returns (the
    [id] column of [returning id]), the database and the transaction. *)
Definition exec (now : Z) (s : Stmt) (db : Database) (txn : option Tables)
    : list jsstring * (Database * option Tables) :=
  match s with
  | Begin =>
      ([], (db, match txn with
                | Some t => Some t
                | None => Some (committed db)
                end))
  | InsertTenant name =>
      let id := id_default (schema db) (id_seq db) in
      let db1 := {| committed := committed db;
                    id_seq := id_seq db + 1;
                    schema := schema db |} in
      ([id], write (insert_tenant id name) db1 txn)
  | InsertApiKey tid h label =>
      ([], write (insert_api_key tid h label) db txn)
  | UpsertTenantSecret tid k loc url ver =>
      ([], write (upsert_tenant_secret (schema db) now tid k loc url ver) db txn)
  | Commit =>
      ([], (match txn with
            | Some t => {| committed := t; id_seq := id_seq db; schema := schema db |}
            | None => db
            end, None))
  | Rollback => ([], (db, None))
  end.

(** ** The process and its world *)

(** Errors by origin: [new Error(...)] thrown by the script itself (its two
    validations), a [TypeError] of the runtime, and the rejection of a
    query by [pg]. *)
Inductive Err :=
| Error (message : jsstring)
| TypeError (message : jsstring)
| DbError (message : jsstring).

Definition message (e : Err) : jsstring :=
  match e with
  | Error m | TypeError m | DbError m => m
  end.

(** The pool of [new Pool({ connectionString, max: 1 })]: its single
    connection carries the open transaction, if any. *)
Inductive PoolState :=
| NoPool
| PoolOpen (connectionString : jsstring) (txn : option Tables)
| PoolEnded.

Inductive Event :=
| EPrompt (question : jsstring)
| ELog (line : jsstring)
| EErr (line : jsstring)
| ENewPool (connectionString : jsstring) (max : N)
| EQuery (s : Stmt) (served : bool)
| EPoolEnd
| EExit (code : Z).

Record World := {
  env_DATABASE_URL : option jsstring;  (* process.env.DATABASE_URL *)
  stdin : list (list jsstring);        (* what reaches stdin, delivery by delivery *)
  stdin_closed : bool;                 (* does the input end after them? *)
  random : nat -> N;                   (* bytes of the system CSPRNG *)
  drawn : nat;                         (* how many of them were consumed *)
  faults : nat -> option jsstring;     (* n-th query: rejected with a message? *)
  asked : nat;                         (* queries sent so far *)
  now : Z;                             (* time of the run, as now() reports it *)
  database : Database;
  pool : PoolState;
  trace : list Event                   (* oldest first *)
}.

Definition emit (e : Event) (w : World) : World :=
  {| env_DATABASE_URL := env_DATABASE_URL w; stdin := stdin w; stdin_closed := stdin_closed w;
     random := random w; drawn := drawn w; faults := faults w;
     asked := asked w; now := now w; database := database w;
     pool := pool w; trace := trace w ++ [e] |}.

Definition set_stdin (l : list (list jsstring)) (w : World) : World :=
  {| env_DATABASE_URL := env_DATABASE_URL w; stdin := l; stdin_closed := stdin_closed w;
     random := random w; drawn := drawn w; faults := faults w;
     asked := asked w; now := now w; database := database w;
     pool := pool w; trace := trace w |}.

Definition set_drawn (n : nat) (w : World) : World :=
  {| env_DATABASE_URL := env_DATABASE_URL w; stdin := stdin w; stdin_closed := stdin_closed w;
     random := random w; drawn := n; faults := faults w;
     asked := asked w; now := now w; database := database w;
     pool := pool w; trace := trace w |}.

Definition set_asked (n : nat) (w : World) : World :=
  {| env_DATABASE_URL := env_DATABASE_URL w; stdin := stdin w; stdin_closed := stdin_closed w;
     random := random w; drawn := drawn w; faults := faults w;
     asked := n; now := now w; database := database w;
     pool := pool w; trace := trace w |}.

Definition set_database (d : Database) (w : World) : World :=
  {| env_DATABASE_URL := env_DATABASE_URL w; stdin := stdin w; stdin_closed := stdin_closed w;
     random := random w; drawn := drawn w; faults := faults w;
     asked := asked w; now := now w; database := d;
     pool := pool w; trace := trace w |}.

Definition set_pool (p : PoolState) (w : World) : World :=
  {| env_DATABASE_URL := env_DATABASE_URL w; stdin := stdin w; stdin_closed := stdin_closed w;
     random := random w; drawn := drawn w; faults := faults w;
     asked := asked w; now := now w; database := database w;
     pool := p; trace := trace w |}.

(** How a computation ends. *)
Inductive Outcome (A : Type) :=
| Value (a : A)       (* the promise resolves *)
| Throw (e : Err)     (* the promise rejects *)
| Exit (code : Z)     (* process.exit(code): nothing runs after it *)
| Pending             (* the awaited answer never comes *)
| Drained.            (* the input ended: the promise never settles and the
                         process, with nothing left to wait for, ends *)

Arguments Value {A} a.
Arguments Throw {A} e.
Arguments Exit {A} code.
Arguments Pending {A}.
Arguments Drained {A}.

Definition M (A : Type) : Type := World -> Outcome A * World.

Definition ret {A} (a : A) : M A := fun w => (Value a, w).

Definition bind {A B} (m : M A) (k : A -> M B) : M B :=
  fun w =>
    match m w with
    | (Value a, w1) => k a w1
    | (Throw e, w1) => (Throw e, w1)
    | (Exit c, w1) => (Exit c, w1)
    | (Pending, w1) => (Pending, w1)
    | (Drained, w1) => (Drained, w1)
    end.

Notation "x <- m ;; k" := (bind m (fun x => k))
  (at level 100, m at next level, right associativity).
Notation "m ;;; k" := (bind m (fun _ => k))
  (at level 100, right associativity).

Definition throw {A} (e : Err) : M A := fun w => (Throw e, w).

(** [process.exit(code)] ends the process on the spot: no [catch] and no
    [finally] block runs after it. *)
Definition process_exit {A} (code : Z) : M A :=
  fun w => (Exit code, emit (EExit code) w).

(** [try { body } catch (err) { handler }]. *)
Definition try_catch {A} (body : M A) (handler : Err -> M A) : M A :=
  fun w =>
    match body w with
    | (Throw e, w1) => handler e w1
    | r => r
    end.

(** [try { body } finally { fin }]: [fin] runs when [body] completes, by a
    value or by a throw, and its own abrupt completion wins. *)
Definition try_finally {A} (body : M A) (fin : M unit) : M A :=
  fun w =>
    match body w with
    | (Value a, w1) =>
        match fin w1 with
        | (Value _, w2) => (Value a, w2)
        | (Throw e, w2) => (Throw e, w2)
        | (Exit c, w2) => (Exit c, w2)
        | (Pending, w2) => (Pending, w2)
        | (Drained, w2) => (Drained, w2)
        end
    | (Throw e, w1) =>
        match fin w1 with
        | (Value _, w2) => (Throw e, w2)
        | (Throw e', w2) => (Throw e', w2)
        | (Exit c, w2) => (Exit c, w2)
        | (Pending, w2) => (Pending, w2)
        | (Drained, w2) => (Drained, w2)
        end
    | (Exit c, w1) => (Exit c, w1)
    | (Pending, w1) => (Pending, w1)
    | (Drained, w1) => (Drained, w1)
    end.

Definition try_catch_finally {A} (body : M A) (handler : Err -> M A)
    (fin : M unit) : M A :=
  try_finally (try_catch body handler) fin.

(** ** Primitives of the runtime *)

Definition console_log (line : jsstring) : M unit :=
  fun w => (Value tt, emit (ELog line) w).

(** [console.error(a, b)] prints its arguments separated by a space. *)
Definition console_error (args : list jsstring) : M unit :=
  fun w =>
    (Value tt,
     emit (EErr (match args with
                 | [] => []
                 | a :: rest => fold_left (fun acc x => acc ++ [32] ++ x) rest a
                 end)) w).

(** [new Pool({ connectionString, max })] only records its configuration;
    nothing is sent before the first query. *)
Definition new_pool (connectionString : jsstring) (max : N) : M unit :=
  fun w =>
    (Value tt,
     emit (ENewPool connectionString max) (set_pool (PoolOpen connectionString None) w)).

(** [await pool.query(...)]: with [max: 1] every query travels on the pool's
    one connection.  A query is either rejected, and then changes nothing, or
    served, and then has its whole effect. *)
Definition pool_query (s : Stmt) : M (list jsstring) :=
  fun w =>
    match pool w with
    | PoolOpen url txn =>
        match faults w (asked w) with
        | Some msg =>
            (Throw (DbError msg), emit (EQuery s false) (set_asked (S (asked w)) w))
        | None =>
            let '(rows, (db, txn')) := exec (now w) s (database w) txn in
            (Value rows,
             emit (EQuery s true)
               (set_pool (PoolOpen url txn')
                  (set_database db (set_asked (S (asked w)) w))))
        end
    | NoPool | PoolEnded =>
        (Throw (Error (Js.lit "Cannot use a pool after calling end on the pool")), w)
    end.

(** [await pool.end()]: the connection is closed, and an open transaction
    dies with it. *)
Definition pool_end : M unit :=
  fun w =>
    match pool w with
    | PoolOpen _ _ => (Value tt, emit EPoolEnd (set_pool PoolEnded w))
    | NoPool | PoolEnded =>
        (Throw (Error (Js.lit "Called end on pool more than once")), w)
    end.

(** [crypto.randomBytes(n)]. *)
Definition randomBytes (n : nat) : M (list N) :=
  fun w =>
    (Value (List.map (fun i => N.land (random w (drawn w + i)%nat) 0xFF) (seq 0 n)),
     set_drawn (drawn w + n)%nat w).

(** ** The script: [src/cli/create-tenant.ts] *)

Record Answers := {
  name : jsstring;
  label : jsstring;
  ghlApiKey : jsstring;
  ghlLocationId : jsstring;
  ghlBaseUrl : jsstring;
  ghlVersion : jsstring
}.

(** What a readline interface opened now gets to see: the first whole line of
    the next delivery that holds one, and the deliveries after that one.  The
    other lines of that delivery are read by the same interface and are gone
    with it. *)
Fixpoint read_line (input : list (list jsstring))
    : option (jsstring * list (list jsstring)) :=
  match input with
  | [] => None
  | [] :: rest => read_line rest
  | (line :: _) :: rest => Some (line, rest)
  end.

(** [ask]: every question has a readline interface of its own, created for
    it and closed in the callback of its first line.  The question is written
    to the terminal and the promise resolves with that line, trimmed.  When
    the input ends instead, the interface closes without calling back: the
    promise never settles and nothing keeps the process alive. *)
Definition ask (question : jsstring) : M jsstring :=
  fun w =>
    let w1 := emit (EPrompt question) w in
    match read_line (stdin w1) with
    | Some (ans, rest) => (Value (Js.trim ans), set_stdin rest w1)
    | None =>
        (if stdin_closed w1 then Drained else Pending, set_stdin [] w1)
    end.

Definition sha256Hex (s : jsstring) : jsstring :=
  Js.hex (Sha256.digest (Js.utf8 s)).

Definition genApiKey : M jsstring :=
  bytes <- randomBytes 24 ;;
  ret (Js.hex bytes).

Definition default_label : jsstring := Js.lit "primary".
Definition default_base_url : jsstring := Js.lit "https://services.leadconnectorhq.com".
Definition default_version : jsstring := Js.lit "2021-07-28".

Definition name_required : Err := Error (Js.lit "Tenant name is required.").
Definition both_required : Err :=
  Error (Js.lit "If you provide GHL credentials, you must provide BOTH API key and Location ID.").

(** [(await ask(question)) || fallback]. *)
Definition ask_or (question fallback : jsstring) : M jsstring :=
  ans <- ask question ;;
  ret (Js.or_else ans fallback).

(** Lines 44 to 56 of [main]: the six questions. *)
Definition collect : M Answers :=
  name <- ask (Js.lit "Tenant name (company): ") ;;
  (if negb (Js.truthy name) then throw name_required else ret tt) ;;;
  label <- ask_or (Js.lit "API key label [primary]: ") default_label ;;
  ghlApiKey <- ask (Js.lit "GHL API key (press Enter to skip for now): ") ;;
  ghlLocationId <- ask (Js.lit "GHL Location ID (press Enter to skip for now): ") ;;
  ghlBaseUrl <- ask_or (Js.lit "GHL Base URL [https://services.leadconnectorhq.com]: ")
                  default_base_url ;;
  ghlVersion <- ask_or (Js.lit "GHL Version [2021-07-28]: ") default_version ;;
  ret {| name := name;
         label := label;
         ghlApiKey := ghlApiKey;
         ghlLocationId := ghlLocationId;
         ghlBaseUrl := ghlBaseUrl;
         ghlVersion := ghlVersion |}.

(** [tenantRes.rows[0].id]. *)
Definition first_id (rows : list jsstring) : M jsstring :=
  match rows with
  | id :: _ => ret id
  | [] => throw (TypeError (Js.lit "Cannot read properties of undefined (reading 'id')"))
  end.

Definition rule : jsstring := Js.lit "--------------------------------------------------".

(** Lines 101 to 117: the report of a successful run. *)
Definition report (a : Answers) (tenantId rawKey : jsstring) : M unit :=
  console_log ([10; 0x2705] ++ Js.lit " Tenant created!") ;;;
  console_log rule ;;;
  console_log (Js.lit "Tenant:     " ++ name a) ;;;
  console_log (Js.lit "Tenant ID:  " ++ tenantId) ;;;
  console_log (Js.lit "Key label:  " ++ label a) ;;;
  console_log ([10; 0xD83D; 0xDD11] ++ Js.lit " API Key (SAVE THIS NOW " ++ [0x2014]
                 ++ Js.lit " it will not be shown again):") ;;;
  console_log rawKey ;;;
  console_log ([10; 0xD83D; 0xDCCC] ++ Js.lit " n8n Header:") ;;;
  console_log (Js.lit "Authorization: Bearer " ++ rawKey) ;;;
  console_log ([10; 0xD83D; 0xDCCD] ++ Js.lit " Execute endpoint:") ;;;
  console_log (Js.lit "POST /api/execute  (use your deployed base URL)") ;;;
  console_log (rule ++ [10]) ;;;
  if negb (Js.truthy (ghlApiKey a)) || negb (Js.truthy (ghlLocationId a))
  then console_log ([0x2139; 0xFE0F] ++ Js.lit "  Note: You skipped tenant_secrets. This tenant will only work if your server has env GHL_API_KEY + GHL_LOCATION_ID set (single-tenant fallback).")
  else ret tt.

(** Lines 62 to 99: the transaction. *)
Definition store (a : Answers) (keyHash : jsstring) : M jsstring :=
  pool_query Begin ;;;
  tenantRes <- pool_query (InsertTenant (name a)) ;;
  tenantId <- first_id tenantRes ;;
  pool_query (InsertApiKey tenantId keyHash (label a)) ;;;
  (if Js.truthy (ghlApiKey a) || Js.truthy (ghlLocationId a)
   then
     (if negb (Js.truthy (ghlApiKey a)) || negb (Js.truthy (ghlLocationId a))
      then throw both_required
      else ret tt) ;;;
     pool_query (UpsertTenantSecret tenantId (ghlApiKey a) (ghlLocationId a)
                   (ghlBaseUrl a) (ghlVersion a)) ;;;
     ret tt
   else ret tt) ;;;
  pool_query Commit ;;;
  ret tenantId.

(** The body of the [try] block. *)
Definition main_try : M unit :=
  a <- collect ;;
  rawKey <- genApiKey ;;
  let keyHash := sha256Hex rawKey in
  tenantId <- store a keyHash ;;
  report a tenantId rawKey.

(** The [catch] block: a rollback whose own failure is dropped, the message
    of the caught error, and [process.exit(1)]. *)
Definition main_catch (err : Err) : M unit :=
  try_catch (pool_query Rollback ;;; ret tt) (fun _ => ret tt) ;;;
  console_error [[10; 0x274C] ++ Js.lit " create-tenant failed:"; message err] ;;;
  process_exit 1.

(** [!process.env.DATABASE_URL]: the variable is unset, or set to the empty
    string. *)
Definition missing (v : option jsstring) : bool :=
  match v with
  | Some s => negb (Js.truthy s)
  | None => true
  end.

(** [process.env.DATABASE_URL]. *)
Definition getenv_DATABASE_URL : M (option jsstring) :=
  fun w => (Value (env_DATABASE_URL w), w).

Definition main : M unit :=
  DATABASE_URL <- getenv_DATABASE_URL ;;
  (if missing DATABASE_URL
   then console_error [[0x274C] ++ Js.lit " Missing DATABASE_URL env var"] ;;;
        process_exit 1
   else ret tt) ;;;
  new_pool (default [] DATABASE_URL) 1 ;;;
  try_catch_finally main_try main_catch pool_end.

(** The script is the call [main();]: the exit code of the process, when it
    ends.  A rejection nobody handles ends it with code 1; a process left
    with nothing to wait for ends with code 0. *)
Definition exit_code {A} (o : Outcome A) : option Z :=
  match o with
  | Value _ => Some 0%Z
  | Throw _ => Some 1%Z
  | Exit c => Some c
  | Pending => None
  | Drained => Some 0%Z
  end.

(** What is visible in the database once the process is gone: the committed
    tables.  A transaction left open on the connection is never committed. *)
Definition visible (w : World) : Tables := committed (database w).

(** ** The shared pool: the module exporting [db()] *)

Module Db.

(** The options of [new Pool({ connectionString, ssl })]. *)
Record PoolConfig := {
  connectionString : option jsstring;
  ssl_rejectUnauthorized : option bool   (* [None]: ssl is undefined *)
}.

(** The part of [process.env] the module reads. *)
Record Env := {
  DATABASE_URL : option jsstring;
  NODE_ENV : option jsstring
}.

(** The module variable [pool] (null, or a reference to a pool object) and
    the pool objects constructed so far; a reference is the position of its
    object in that list. *)
Record State := {
  pool_var : option nat;
  constructed : list PoolConfig
}.

Definition initial : State := {| pool_var := None; constructed := [] |}.

Definition is_production (v : option jsstring) : bool :=
  match v with
  | Some s => bool_decide (s = Js.lit "production")
  | None => false
  end.

Definition config (env : Env) : PoolConfig :=
  {| connectionString := DATABASE_URL env;
     ssl_rejectUnauthorized :=
       if is_production (NODE_ENV env) then Some false else None |}.

Definition db (env : Env) (s : State) : nat * State :=
  match pool_var s with
  | None =>
      let r := length (constructed s) in
      (r, {| pool_var := Some r; constructed := constructed s ++ [config env] |})
  | Some r => (r, s)
  end.

(** Successive calls of [db()], each under the environment of its moment:
    the references returned, first call first, and the final state. *)
Fixpoint calls (envs : list Env) (s : State) : list nat * State :=
  match envs with
  | [] => ([], s)
  | env :: rest =>
      let (r, s1) := db env s in
      let (rs, s2) := calls rest s1 in
      (r :: rs, s2)
  end.

End Db.

(** ** Vocabulary of the statements *)

(** The world in which the [try] block starts: the pool is constructed from
    [DATABASE_URL] and nothing was sent. *)
Definition ready (w : World) : World :=
  emit (ENewPool (default [] (env_DATABASE_URL w)) 1)
    (set_pool (PoolOpen (default [] (env_DATABASE_URL w)) None) w).

(** The 24 bytes [genApiKey] draws in [w], and the key made of them. *)
Definition key_bytes (w : World) : list N :=
  List.map (fun i => N.land (random w (drawn w + i)%nat) 0xFF) (seq 0 24).

Definition key_of (w : World) : jsstring := Js.hex (key_bytes w).

(** The identifier the next inserted tenant receives. *)
Definition next_id (w : World) : jsstring :=
  id_default (schema (database w)) (id_seq (database w)).

(** The line [main_catch] prints for an error. *)
Definition failure_line (e : Err) : jsstring :=
  ([10; 0x274C] ++ Js.lit " create-tenant failed:") ++ [32] ++ message e.

(** The two validations of the script throw [new Error(...)]. *)
Definition is_validation (e : Err) : bool :=
  match e with
  | Error _ => true
  | TypeError _ | DbError _ => false
  end.

Definition pool_closed (w : World) : bool :=
  match pool w with
  | PoolEnded => true
  | NoPool | PoolOpen _ _ => false
  end.

(** A white-space-only line replaced by the empty line, in a string and in
    all the lines the operator will submit. *)
Definition unblank (s : jsstring) : jsstring :=
  if Js.blank s then [] else s.

Definition calm (w : World) : World :=
  set_stdin (List.map (List.map unblank) (stdin w)) w.

(** What the terminal cannot change: everything but [stdin] and [trace]. *)
Definition backend (w : World) :=
  (env_DATABASE_URL w, random w, drawn w, faults w, asked w, now w,
   database w, pool w).

(** The lines [n] questions asked one after the other get to read, if the
    input has one for each. *)
Fixpoint read_lines (n : nat) (input : list (list jsstring)) : option (list jsstring) :=
  match n with
  | O => Some []
  | S n' =>
      match read_line input with
      | Some (r, rest) =>
          match read_lines n' rest with
          | Some rs => Some (r :: rs)
          | None => None
          end
      | None => None
      end
  end.

(** The six questions, in the order of the source. *)
Definition questions : list jsstring :=
  [Js.lit "Tenant name (company): ";
   Js.lit "API key label [primary]: ";
   Js.lit "GHL API key (press Enter to skip for now): ";
   Js.lit "GHL Location ID (press Enter to skip for now): ";
   Js.lit "GHL Base URL [https://services.leadconnectorhq.com]: ";
   Js.lit "GHL Version [2021-07-28]: "].

(** The world after [qs] were asked and answered, [rest] being unread. *)
Definition asked_all (qs : list jsstring) (rest : list (list jsstring)) (w : World)
    : World :=
  set_stdin rest (fold_left (fun w q => emit (EPrompt q) w) qs w).

(** The tables after the transaction of a run with answers [a], key hash [h]
    and tenant identifier [tid]. *)
Definition stored (sch : Schema) (now : Z) (a : Answers) (h tid : jsstring)
    (t : Tables) : Tables :=
  let t2 := insert_api_key tid h (label a) (insert_tenant tid (name a) t) in
  if Js.truthy (ghlApiKey a)
  then upsert_tenant_secret sch now tid (ghlApiKey a) (ghlLocationId a)
         (ghlBaseUrl a) (ghlVersion a) t2
  else t2.

(** The answers six lines stand for. *)
Definition answers (r1 r2 r3 r4 r5 r6 : jsstring) : Answers :=
  {| name := Js.trim r1;
     label := Js.or_else (Js.trim r2) default_label;
     ghlApiKey := Js.trim r3;
     ghlLocationId := Js.trim r4;
     ghlBaseUrl := Js.or_else (Js.trim r5) default_base_url;
     ghlVersion := Js.or_else (Js.trim r6) default_version |}.

(** [ans] is [line] without the white space at its two ends: what is cut
    off is white space only, and [ans] neither starts nor ends with white
    space. *)
Definition trimmed_of (line ans : jsstring) : Prop :=
  exists pre post,
    line = pre ++ ans ++ post /\
    Js.blank pre = true /\
    Js.blank post = true /\
    (forall c t, ans = c :: t -> Js.is_space c = false) /\
    (forall c t, rev ans = c :: t -> Js.is_space c = false).

(** A computation that treats a white-space-only line as the empty line:
    run on the calmed world, it ends the same way, in the calmed world of
    the original run. *)
Definition commutes {A} (m : M A) : Prop :=
  forall w, m (calm w) = (fst (m w), calm (snd (m w))).

(** ** The order of the statements *)

(** The statements of the transaction in the order of lines 62 to 99: the
    upsert is there only with both third-party values, and with exactly one
    of them line 80 throws before anything more is sent. *)
Definition plan (a : Answers) (keyHash tenantId : jsstring) : list Stmt :=
  [Begin; InsertTenant (name a); InsertApiKey tenantId keyHash (label a)] ++
  (if Js.truthy (ghlApiKey a) || Js.truthy (ghlLocationId a)
   then
     if negb (Js.truthy (ghlApiKey a)) || negb (Js.truthy (ghlLocationId a))
     then []
     else [UpsertTenantSecret tenantId (ghlApiKey a) (ghlLocationId a)
             (ghlBaseUrl a) (ghlVersion a);
           Commit]
   else [Commit]).

(** The queries the trace records when statements are sent one after the
    other from the [n]-th query on: each is served until the first rejection,
    which ends the sequence. *)
Fixpoint sent (faults : nat -> option jsstring) (n : nat) (stmts : list Stmt)
    : list Event :=
  match stmts with
  | [] => []
  | s :: rest =>
      match faults n with
      | Some _ => [EQuery s false]
      | None => EQuery s true :: sent faults (S n) rest
      end
  end.

(** The message of the first rejection among [k] queries from the [n]-th. *)
Fixpoint first_fault (faults : nat -> option jsstring) (n k : nat)
    : option jsstring :=
  match k with
  | O => None
  | S k' =>
      match faults n with
      | Some msg => Some msg
      | None => first_fault faults (S n) k'
      end
  end.

Definition is_log (e : Event) : bool :=
  match e with
  | ELog _ => true
  | _ => false
  end.

(** An upsert of third-party values carries both of them. *)
Definition paired (e : Event) : bool :=
  match e with
  | EQuery (UpsertTenantSecret _ k loc _ _) _ => Js.truthy k && Js.truthy loc
  | _ => true
  end.

Definition is_prompt (e : Event) : bool :=
  match e with
  | EPrompt _ => true
  | _ => false
  end.

(** From [w] to [w1] the trace only grew, by events that all satisfy [P]. *)
Definition extends (P : Event -> bool) (w w1 : World) : Prop :=
  exists evs, trace w1 = trace w ++ evs /\ forallb P evs = true.

(** What a run may record: always paired upserts, and no report line
    unless it returns. *)
Definition allowed {A} (o : Outcome A) (e : Event) : bool :=
  paired e &&
  match o with
  | Value _ => true
  | Throw _ | Exit _ | Pending | Drained => negb (is_log e)
  end.

(** A computation that leaves everything but the terminal as it was. *)
Definition keeps {A} (m : M A) : Prop :=
  forall w, backend (snd (m w)) = backend w.

(** A computation that only adds events satisfying [P] to the trace. *)
Definition emits {A} (P : Event -> bool) (m : M A) : Prop :=
  forall w, extends P w (snd (m w)).

(** How a question ends that finds no line: for ever waiting on an open
    input, left behind on a closed one. *)
Definition unanswered {A} (w : World) : Outcome A :=
  if stdin_closed w then Drained else Pending.

(** ** Sample worlds *)

Module Sample.

Definition sch : Schema :=
  {| id_default := fun n => Js.lit "t-" ++ [48 + n];
     updated_at_default := fun t => t |}.

Definition empty_tables : Tables :=
  {| tenants := []; api_keys := []; tenant_secrets := ∅ |}.

Definition db0 : Database :=
  {| committed := empty_tables; id_seq := 1; schema := sch |}.

(** A database that holds a first tenant with its key and its secrets. *)
Definition old_secret : SecretRow :=
  {| ghl_api_key := Js.lit "old-key";
     ghl_location_id := Js.lit "old-loc";
     ghl_base_url := Js.lit "https://old.example";
     ghl_version := Js.lit "2020-01-01";
     updated_at := 50 |}.

Definition db1 : Database :=
  {| committed :=
       {| tenants := [{| tenant_id := Js.lit "t-0"; tenant_name := Js.lit "First" |}];
          api_keys := [{| key_tenant_id := Js.lit "t-0";
                          key_hash := sha256Hex (Js.lit "abc");
                          key_label := Js.lit "primary" |}];
          tenant_secrets := {[ Js.lit "t-0" := old_secret ]} |};
     id_seq := 1;
     schema := sch |}.

(** An operator at a terminal: every line is a delivery of its own. *)
Definition typed (lines : list jsstring) : list (list jsstring) :=
  List.map (fun line => [line]) lines.

Definition world (lines : list jsstring) (faults : nat -> option jsstring)
    (db : Database) : World :=
  {| env_DATABASE_URL := Some (Js.lit "postgres://localhost/app");
     stdin := typed lines;
     stdin_closed := false;
     random := fun i => N.of_nat (7 * i + 3);
     drawn := 0;
     faults := faults;
     asked := 0;
     now := 100;
     database := db;
     pool := NoPool;
     trace := [] |}.

Definition no_fault : nat -> option jsstring := fun _ => None.

(** The queries are answered after a script: the [i]-th is rejected when
    the [i]-th entry holds a message; past the script every query is served. *)
Definition script (l : list (option jsstring)) : nat -> option jsstring :=
  fun i => nth i l None.

(** Both third-party values given. *)
Definition full : list jsstring :=
  [Js.lit " Acme "; []; Js.lit "key-1"; Js.lit "loc-1"; []; []].

(** No third-party value. *)
Definition bare : list jsstring :=
  [Js.lit "Acme"; Js.lit "ops"; []; [32]; []; []].

(** The third-party key without the location. *)
Definition partial : list jsstring :=
  [Js.lit "Acme"; []; Js.lit "X"; []; []; []].

(** A white-space-only tenant name. *)
Definition nameless : list jsstring :=
  [[32; 9]; []; []; []; []; []].

Definition unset (w : World) : World :=
  {| env_DATABASE_URL := None; stdin := stdin w; stdin_closed := stdin_closed w;
     random := random w; drawn := drawn w; faults := faults w;
     asked := asked w; now := now w; database := database w;
     pool := pool w; trace := trace w |}.

(** Worlds the statements are tried on. *)
Definition returning : World := world full no_fault db1.
Definition deadlocked : World :=
  world full (script [None; None; None; None; Some (Js.lit "deadlock detected")]) db1.
Definition refused : World :=
  world full (script [Some (Js.lit "connection refused");
                      Some (Js.lit "rollback failed")]) db0.
Definition plain : World := world bare no_fault db0.
Definition one_sided : World := world partial no_fault db0.
Definition one_sided_down : World :=
  world partial (script [None; Some (Js.lit "connection terminated")]) db0.
Definition anonymous : World := world nameless no_fault db0.
Definition unconfigured : World := unset (world full no_fault db0).

(** [DATABASE_URL] set, but to the empty string. *)
Definition blank_url : World :=
  {| env_DATABASE_URL := Some []; stdin := typed full; stdin_closed := false;
     random := fun _ => 0; drawn := 0; faults := no_fault; asked := 0;
     now := 100; database := db0; pool := NoPool; trace := [] |}.

(** The operator stops after two answers and leaves the terminal open. *)
Definition walked_away : World := world [Js.lit "Acme"; Js.lit "ops"] no_fault db0.

(** The same lines through a pipe: they reach stdin at once, and the input
    ends after them. *)
Definition piped (lines : list jsstring) : World :=
  {| env_DATABASE_URL := Some (Js.lit "postgres://localhost/app");
     stdin := [lines]; stdin_closed := true;
     random := fun i => N.of_nat (7 * i + 3); drawn := 0;
     faults := no_fault; asked := 0;
     now := 100; database := db0; pool := NoPool; trace := [] |}.

(** The script run a second time, later, on the database a first run left,
    with other third-party values. *)
Definition again : list jsstring :=
  [Js.lit "Acme"; []; Js.lit "key-2"; Js.lit "loc-2"; []; []].

Definition second_run (first : World) : World :=
  {| env_DATABASE_URL := Some (Js.lit "postgres://localhost/app");
     stdin := typed again; stdin_closed := false;
     random := fun i => N.of_nat (11 * i + 5); drawn := 0;
     faults := no_fault; asked := 0;
     now := 200; database := database (snd (main first)); pool := NoPool;
     trace := [] |}.

End Sample.

(** * Properties *)

Arguments Js.lit : simpl never.
Arguments Js.trim : simpl never.
Arguments Js.hex : simpl never.
Arguments Js.blank : simpl never.
Arguments sha256Hex : simpl never.
Arguments Js.truthy : simpl nomatch.
Arguments insert_tenant : simpl never.
Arguments insert_api_key : simpl never.
Arguments upsert_tenant_secret : simpl never.
Arguments key_of : simpl never.
Arguments failure_line : simpl never.

(** ** The hash against the published test vectors *)

Example sha256_constants :
  firstn 2 Sha256.K = [0x428a2f98; 0x71374491] /\
  last Sha256.K = Some 0xc67178f2 /\
  Sha256.ra Sha256.H0 = 0x6a09e667 /\
  Sha256.rh Sha256.H0 = 0x5be0cd19.
Proof. vm_compute. repeat split; reflexivity. Qed.

Example sha256_empty :
  sha256Hex [] =
  Js.lit "e3b0c44298fc1c149afbf4c8996fb92427ae41e4649b934ca495991b7852b855".
Proof. vm_compute. reflexivity. Qed.

Example sha256_abc :
  sha256Hex (Js.lit "abc") =
  Js.lit "ba7816bf8f01cfea414140de5dae2223b00361a396177a9cb410ff61f20015ad".
Proof. vm_compute. reflexivity. Qed.

Example sha256_two_blocks :
  sha256Hex (Js.lit "abcdbcdecdefdefgefghfghighijhijkijkljklmklmnlmnomnopnopq") =
  Js.lit "248d6a61d20638b8e5c026930c3e6039a33ce45964ff2167f6ecedd419db06c1".
Proof. vm_compute. reflexivity. Qed.
Example sha256_utf8 :
  sha256Hex ([0x68; 0xE9; 0x6C; 0x6C; 0x6F; 0x20; 0xD83D; 0xDD11; 0x20; 0x2014]) =
  Js.lit "7edf9e57e94e1cc1f985fb2c814aa011d3ef2114aab6d4bdeb8dd4e4446a7349".
Proof. vm_compute. reflexivity. Qed.

(** ** The script on the sample worlds *)

Example run_exit_codes :
  exit_code (fst (main Sample.returning)) = Some 0%Z /\
  exit_code (fst (main Sample.one_sided)) = Some 1%Z /\
  exit_code (fst (main Sample.deadlocked)) = Some 1%Z /\
  exit_code (fst (main Sample.unconfigured)) = Some 1%Z /\
  exit_code (fst (main Sample.walked_away)) = None /\
  exit_code (fst (main (Sample.piped Sample.bare))) = Some 0%Z.
Proof. vm_compute. repeat split; reflexivity. Qed.

(** Six lines through a pipe: the interface of the first question reads
    them all, the second question finds the input at its end, and the
    process ends without a word. *)
Example run_on_piped_lines :
  main (Sample.piped Sample.bare) =
    (Drained,
     set_stdin []
       (emit (EPrompt (Js.lit "API key label [primary]: "))
          (emit (EPrompt (Js.lit "Tenant name (company): "))
             (ready (Sample.piped Sample.bare))))).
Proof. reflexivity. Qed.

Example run_queries_of_a_plain_run :
  List.filter (fun e => match e with EQuery _ _ => true | _ => false end)
    (trace (snd (main Sample.plain))) =
  [EQuery Begin true;
   EQuery (InsertTenant (Js.lit "Acme")) true;
   EQuery (InsertApiKey (Js.lit "t-1") (sha256Hex (key_of Sample.plain)) (Js.lit "ops")) true;
   EQuery Commit true].
Proof. vm_compute. reflexivity. Qed.

(** ** Strings, hexadecimal text and digests *)

Lemma trimStart_blank (s : jsstring) :
  Js.blank s = true -> Js.trimStart s = [].
Proof.
  unfold Js.blank.
  induction s as [|c s IH]; simpl; [reflexivity|].
  destruct (Js.is_space c); simpl; [exact IH | discriminate].
Qed.

Lemma trim_blank (s : jsstring) :
  Js.blank s = true -> Js.trim s = [].
Proof.
  intros H. unfold Js.trim, Js.trimEnd.
  rewrite (trimStart_blank s H). reflexivity.
Qed.

Lemma trim_unblank (s : jsstring) : Js.trim (unblank s) = Js.trim s.
Proof.
  unfold unblank. destruct (Js.blank s) eqn:B; [|reflexivity].
  rewrite (trim_blank s B). reflexivity.
Qed.

Lemma truthy_false (s : jsstring) : Js.truthy s = false <-> s = [].
Proof. destruct s; simpl; split; congruence. Qed.

Lemma or_else_empty (d : jsstring) : Js.or_else [] d = d.
Proof. reflexivity. Qed.

Lemma or_else_truthy (s d : jsstring) : Js.truthy s = true -> Js.or_else s d = s.
Proof. unfold Js.or_else. intros ->. reflexivity. Qed.

Lemma hex_length (bs : list N) : length (Js.hex bs) = (2 * length bs)%nat.
Proof.
  unfold Js.hex. induction bs as [|b bs IH]; simpl; [reflexivity|].
  rewrite IH. lia.
Qed.

Lemma hex_digit_ok (n : N) : n < 16 -> Js.is_hex_digit (Js.hex_digit n) = true.
Proof.
  intros H. unfold Js.hex_digit, Js.is_hex_digit.
  destruct (N.ltb_spec n 10).
  - apply orb_true_iff. left. apply andb_true_iff. split; apply N.leb_le; lia.
  - apply orb_true_iff. right. apply andb_true_iff. split; apply N.leb_le; lia.
Qed.

Lemma high_nibble (b : N) : N.shiftr (N.land b 0xFF) 4 < 16.
Proof.
  change 0xFF with (N.ones 8). rewrite N.land_ones, N.shiftr_div_pow2.
  assert (b mod 2 ^ 8 < 2 ^ 8) by (apply N.mod_lt; discriminate).
  change (2 ^ 8) with 256 in *. change (2 ^ 4) with 16.
  apply N.Div0.div_lt_upper_bound. lia.
Qed.

Lemma low_nibble (b : N) : N.land b 0xF < 16.
Proof.
  change 0xF with (N.ones 4). rewrite N.land_ones.
  apply N.mod_lt. discriminate.
Qed.

Lemma hex_digits (bs : list N) : forallb Js.is_hex_digit (Js.hex bs) = true.
Proof.
  unfold Js.hex. induction bs as [|b bs IH]; simpl; [reflexivity|].
  rewrite (hex_digit_ok _ (high_nibble b)), (hex_digit_ok _ (low_nibble b)).
  exact IH.
Qed.

Lemma digest_length (msg : list N) : length (Sha256.digest msg) = 32%nat.
Proof. reflexivity. Qed.

Lemma sha256Hex_length (s : jsstring) : length (sha256Hex s) = 64%nat.
Proof. unfold sha256Hex. rewrite hex_length, digest_length. reflexivity. Qed.

Lemma key_bytes_length (w : World) : length (key_bytes w) = 24%nat.
Proof. reflexivity. Qed.

(** ** Symbolic execution of the script *)

(** Case analysis on the innermost scrutinee of the goal. *)
Ltac crunch :=
  repeat (cbn in *;
          match goal with
          | |- context [match ?x with _ => _ end] =>
              lazymatch x with
              | context [match _ with _ => _ end] => fail
              | _ => destruct x eqn:?
              end
          end).

Lemma main_missing (w : World) :
  missing (env_DATABASE_URL w) = true ->
  main w = (Exit 1%Z,
            emit (EExit 1)
              (emit (EErr ([0x274C] ++ Js.lit " Missing DATABASE_URL env var")) w)).
Proof.
  intros H. unfold main, bind, getenv_DATABASE_URL. cbn. rewrite H. reflexivity.
Qed.

Lemma main_ready (w : World) :
  missing (env_DATABASE_URL w) = false ->
  main w = try_catch_finally main_try main_catch pool_end (ready w).
Proof.
  intros H. unfold main, bind, getenv_DATABASE_URL. cbn. rewrite H. reflexivity.
Qed.

Lemma ask_cons (q r : jsstring) (d : list jsstring) (rest : list (list jsstring))
    (w : World) :
  stdin w = (r :: d) :: rest ->
  ask q w = (Value (Js.trim r), set_stdin rest (emit (EPrompt q) w)).
Proof. intros H. unfold ask. cbn. rewrite H. reflexivity. Qed.

Lemma ask_backend (q : jsstring) (w : World) :
  backend (snd (ask q w)) = backend w.
Proof.
  unfold ask. cbn. destruct (read_line (stdin w)) as [[ans rest]|]; reflexivity.
Qed.

Lemma collect_six (w : World) (r1 r2 r3 r4 r5 r6 : jsstring)
    (d1 d2 d3 d4 d5 d6 : list jsstring) (rest : list (list jsstring)) :
  stdin w = (r1 :: d1) :: (r2 :: d2) :: (r3 :: d3) :: (r4 :: d4) :: (r5 :: d5)
              :: (r6 :: d6) :: rest ->
  Js.truthy (Js.trim r1) = true ->
  collect w =
    (Value {| name := Js.trim r1;
              label := Js.or_else (Js.trim r2) default_label;
              ghlApiKey := Js.trim r3;
              ghlLocationId := Js.trim r4;
              ghlBaseUrl := Js.or_else (Js.trim r5) default_base_url;
              ghlVersion := Js.or_else (Js.trim r6) default_version |},
     asked_all questions rest w).
Proof.
  intros H T.
  unfold collect, ask_or, ask, bind, ret, throw. cbn. rewrite H. cbn.
  rewrite T. reflexivity.
Qed.

Lemma collect_nameless (w : World) (r1 : jsstring) (d1 : list jsstring)
    (rest : list (list jsstring)) :
  stdin w = (r1 :: d1) :: rest ->
  Js.truthy (Js.trim r1) = false ->
  collect w = (Throw name_required,
               asked_all [Js.lit "Tenant name (company): "] rest w).
Proof.
  intros H T.
  unfold collect, ask_or, ask, bind, ret, throw. cbn. rewrite H. cbn.
  rewrite T. reflexivity.
Qed.

(** *** Stepping through binds *)

Lemma bind_value {A B} (m : M A) (k : A -> M B) (w w1 : World) (a : A) :
  m w = (Value a, w1) -> bind m k w = k a w1.
Proof. unfold bind. intros ->. reflexivity. Qed.

Lemma bind_throw {A B} (m : M A) (k : A -> M B) (w w1 : World) (e : Err) :
  m w = (Throw e, w1) -> bind m k w = (Throw e, w1).
Proof. unfold bind. intros ->. reflexivity. Qed.

Lemma bind_ret {A B} (a : A) (k : A -> M B) (w : World) : bind (ret a) k w = k a w.
Proof. reflexivity. Qed.

Lemma bind_assoc {A B C} (m : M A) (f : A -> M B) (g : B -> M C) (w : World) :
  bind (bind m f) g w = bind m (fun a => bind (f a) g) w.
Proof. unfold bind. destruct (m w) as [[a|e|c| |] w1]; reflexivity. Qed.

(** A question followed by the rest of the script. *)
Lemma bind_ask {B} (q : jsstring) (k : jsstring -> M B) (w : World) :
  bind (ask q) k w =
    match read_line (stdin w) with
    | Some (r, rest) => k (Js.trim r) (set_stdin rest (emit (EPrompt q) w))
    | None => (unanswered w, set_stdin [] (emit (EPrompt q) w))
    end.
Proof.
  unfold bind, ask, unanswered. cbn.
  destruct (read_line (stdin w)) as [[r rest]|]; [reflexivity|].
  destruct (stdin_closed w); reflexivity.
Qed.

Lemma keeps_ret {A} (a : A) : keeps (ret a).
Proof. intros w. reflexivity. Qed.

Lemma keeps_throw {A} (e : Err) : keeps (@throw A e).
Proof. intros w. reflexivity. Qed.

Lemma keeps_ask (q : jsstring) : keeps (ask q).
Proof. intros w. apply ask_backend. Qed.

Lemma keeps_bind {A B} (m : M A) (k : A -> M B) :
  keeps m -> (forall a, keeps (k a)) -> keeps (bind m k).
Proof.
  intros Hm Hk w. unfold bind. specialize (Hm w).
  destruct (m w) as [[a|e|c| |] w1]; cbn [snd] in *; try exact Hm.
  rewrite (Hk a w1). exact Hm.
Qed.

Lemma keeps_collect : keeps collect.
Proof.
  unfold collect, ask_or.
  repeat first
    [ apply keeps_bind; [|intros ?]
    | apply keeps_ret
    | apply keeps_throw
    | apply keeps_ask
    | match goal with |- keeps (if ?b then _ else _) => destruct b end ].
Qed.

(** The world a question leaves behind, kept abstract: its input is what
    the question did not read. *)
Ltac next_world W :=
  match goal with
  | |- context [set_stdin ?i (emit ?e ?w)] =>
      let S := fresh "S" in
      let C := fresh "C" in
      set (W := set_stdin i (emit e w));
      assert (S : stdin W = i) by reflexivity;
      assert (C : stdin_closed W = stdin_closed w) by reflexivity;
      clearbody W
  end.

(** How [collect] ends, by what the six questions find on the input. *)
Lemma collect_outcome (w : World) :
  fst (collect w) =
    match read_line (stdin w) with
    | None => unanswered w
    | Some (r1, i1) =>
        if Js.truthy (Js.trim r1)
        then
          match read_line i1 with
          | None => unanswered w
          | Some (r2, i2) =>
          match read_line i2 with
          | None => unanswered w
          | Some (r3, i3) =>
          match read_line i3 with
          | None => unanswered w
          | Some (r4, i4) =>
          match read_line i4 with
          | None => unanswered w
          | Some (r5, i5) =>
          match read_line i5 with
          | None => unanswered w
          | Some (r6, _) => Value (answers r1 r2 r3 r4 r5 r6)
          end end end end end
        else Throw name_required
    end.
Proof.
  unfold collect, ask_or.
  rewrite bind_ask. destruct (read_line (stdin w)) as [[r1 i1]|]; [|reflexivity].
  next_world w1.
  destruct (Js.truthy (Js.trim r1)); cbn [negb]; [|reflexivity].
  rewrite bind_ret, bind_assoc, bind_ask, S.
  destruct (read_line i1) as [[r2 i2]|]; [|unfold unanswered; rewrite C; reflexivity].
  next_world w2. rewrite bind_ret, bind_ask, S0.
  destruct (read_line i2) as [[r3 i3]|];
    [|unfold unanswered; rewrite C0, C; reflexivity].
  next_world w3. rewrite bind_ask, S1.
  destruct (read_line i3) as [[r4 i4]|];
    [|unfold unanswered; rewrite C1, C0, C; reflexivity].
  next_world w4. rewrite bind_assoc, bind_ask, S2.
  destruct (read_line i4) as [[r5 i5]|];
    [|unfold unanswered; rewrite C2, C1, C0, C; reflexivity].
  next_world w5. rewrite bind_ret, bind_assoc, bind_ask, S3.
  destruct (read_line i5) as [[r6 i6]|];
    [|unfold unanswered; rewrite C3, C2, C1, C0, C; reflexivity].
  reflexivity.
Qed.

(** Whatever the operator does, [collect] touches the terminal only, never
    calls [process.exit], and throws nothing but the name validation. *)
Lemma collect_spec (w : World) :
  backend (snd (collect w)) = backend w /\
  match fst (collect w) with
  | Value a => Js.truthy (name a) = true
  | Throw e => e = name_required
  | Exit _ => False
  | Pending | Drained => True
  end.
Proof.
  split; [apply keeps_collect|].
  rewrite collect_outcome. unfold unanswered.
  destruct (read_line (stdin w)) as [[r1 i1]|]; [|destruct (stdin_closed w); exact I].
  destruct (Js.truthy (Js.trim r1)) eqn:T; [|reflexivity].
  repeat match goal with
         | |- context [read_line ?i] =>
             destruct (read_line i) as [[? ?]|];
             [|destruct (stdin_closed w); exact I]
         end.
  exact T.
Qed.

Lemma genApiKey_eq (w : World) :
  genApiKey w = (Value (key_of w), set_drawn (drawn w + 24)%nat w).
Proof. reflexivity. Qed.

(** The transaction, for every pattern of rejected queries: it returns only
    after a commit of all its writes, and a throw leaves the committed tables
    as they were. *)
Lemma store_spec (a : Answers) (h : jsstring) (w : World) (url : jsstring) :
  pool w = PoolOpen url None ->
  match store a h w with
  | (Value tid, w1) =>
      tid = next_id w /\
      Js.truthy (ghlApiKey a) = Js.truthy (ghlLocationId a) /\
      committed (database w1) =
        stored (schema (database w)) (now w) a h tid (committed (database w)) /\
      pool w1 = PoolOpen url None
  | (Throw e, w1) =>
      committed (database w1) = committed (database w) /\
      (exists txn, pool w1 = PoolOpen url txn) /\
      (is_validation e = true ->
       e = both_required /\
       Js.truthy (ghlApiKey a) <> Js.truthy (ghlLocationId a))
  | (Exit _, _) | (Pending, _) | (Drained, _) => False
  end.
Proof.
  intros Hp.
  unfold store, bind, pool_query, first_id, ret, throw, stored, next_id.
  rewrite Hp.
  crunch;
    repeat match goal with
           | |- _ /\ _ => split
           | |- exists _, _ => eexists
           | |- _ = _ => reflexivity
           | |- _ -> _ => intro
           end;
    try discriminate; try congruence.
  all: try (cbn; eassumption).
  all: destruct (Js.truthy (ghlApiKey a)) eqn:?, (Js.truthy (ghlLocationId a)) eqn:?;
    simpl in *; congruence.
Qed.

Lemma store_served (a : Answers) (h : jsstring) (w : World) (url : jsstring) :
  pool w = PoolOpen url None ->
  (forall n, faults w n = None) ->
  Js.truthy (ghlApiKey a) = Js.truthy (ghlLocationId a) ->
  exists w1,
    store a h w = (Value (next_id w), w1) /\
    committed (database w1) =
      stored (schema (database w)) (now w) a h (next_id w) (committed (database w)) /\
    pool w1 = PoolOpen url None.
Proof.
  intros Hp Hf Hv.
  pose proof (store_spec a h w url Hp) as S. revert S.
  unfold store, bind, pool_query, first_id, ret, throw.
  rewrite Hp.
  crunch;
    try match goal with
        | H : faults w _ = Some _ |- _ => rewrite Hf in H; discriminate H
        end.
  all: try (intros (-> & _ & S & P); eexists; split; [reflexivity|]; split; assumption).
  all: destruct (Js.truthy (ghlApiKey a)) eqn:?, (Js.truthy (ghlLocationId a)) eqn:?;
    simpl in *; congruence.
Qed.

(** The report only prints, and the key is among its lines. *)
Lemma report_spec (a : Answers) (tid key : jsstring) (w : World) :
  exists w1 lines,
    report a tid key w = (Value tt, w1) /\
    backend w1 = backend w /\
    stdin w1 = stdin w /\
    trace w1 = trace w ++ lines /\
    In (ELog key) lines /\
    ~ In EPoolEnd lines.
Proof.
  unfold report, bind, console_log, ret.
  destruct (negb (Js.truthy (ghlApiKey a)) || negb (Js.truthy (ghlLocationId a)));
    cbn; eexists; eexists.
  - split; [reflexivity|]. split; [reflexivity|]. split; [reflexivity|].
    cbn. rewrite <- !app_assoc. cbn. split; [reflexivity|].
    split; [ simpl; tauto | simpl; intuition discriminate ].
  - split; [reflexivity|]. split; [reflexivity|]. split; [reflexivity|].
    cbn. rewrite <- !app_assoc. cbn. split; [reflexivity|].
    split; [ simpl; tauto | simpl; intuition discriminate ].
Qed.

(** The handler: a rollback that may fail silently, the message of the
    caught error, exit code 1.  The pool is never ended here. *)
Lemma main_catch_spec (e : Err) (w : World) :
  exists w2 rb,
    main_catch e w = (Exit 1%Z, w2) /\
    trace w2 = trace w ++ rb ++ [EErr (failure_line e); EExit 1] /\
    rb = match pool w with
         | PoolOpen _ _ =>
             [EQuery Rollback (bool_decide (faults w (asked w) = None))]
         | NoPool | PoolEnded => []
         end /\
    committed (database w2) = committed (database w) /\
    pool_closed w2 = pool_closed w /\
    stdin w2 = stdin w.
Proof.
  unfold main_catch, try_catch, bind, pool_query, console_error, process_exit,
    ret, pool_closed, failure_line.
  destruct (pool w) as [|url txn|] eqn:Hp.
  - exists (emit (EExit 1) (emit (EErr (failure_line e)) w)), [].
    cbn. rewrite Hp, <- !app_assoc. unfold failure_line. cbn. tauto.
  - destruct (faults w (asked w)) as [msg|] eqn:F; cbn.
    + eexists. exists [EQuery Rollback false].
      split; [reflexivity|]. cbn. rewrite Hp, <- !app_assoc. cbn. tauto.
    + eexists. exists [EQuery Rollback true].
      split; [reflexivity|]. cbn. rewrite <- !app_assoc. cbn. tauto.
  - exists (emit (EExit 1) (emit (EErr (failure_line e)) w)), [].
    cbn. rewrite Hp, <- !app_assoc. unfold failure_line. cbn. tauto.
Qed.

Lemma backend_inv (w w1 : World) :
  backend w1 = backend w ->
  random w1 = random w /\ drawn w1 = drawn w /\ faults w1 = faults w /\
  asked w1 = asked w /\ now w1 = now w /\ database w1 = database w /\
  pool w1 = pool w.
Proof. unfold backend. intros H. injection H. intros. repeat split; assumption. Qed.

Lemma key_of_backend (w w1 : World) : backend w1 = backend w -> key_of w1 = key_of w.
Proof.
  intros H. apply backend_inv in H. destruct H as (R & D & _).
  unfold key_of, key_bytes. rewrite R, D. reflexivity.
Qed.

(** The [try] block, for every operator and every pattern of rejected
    queries, started with a fresh pool. *)
Lemma main_try_spec (w : World) (url : jsstring) :
  pool w = PoolOpen url None ->
  match main_try w with
  | (Value _, w1) =>
      exists a,
        fst (collect w) = Value a /\
        Js.truthy (name a) = true /\
        Js.truthy (ghlApiKey a) = Js.truthy (ghlLocationId a) /\
        committed (database w1) =
          stored (schema (database w)) (now w) a (sha256Hex (key_of w))
            (next_id w) (committed (database w)) /\
        pool w1 = PoolOpen url None /\
        In (ELog (key_of w)) (trace w1)
  | (Throw e, w1) =>
      committed (database w1) = committed (database w) /\
      (exists txn, pool w1 = PoolOpen url txn) /\
      (is_validation e = true -> e = name_required \/ e = both_required)
  | (Exit _, _) => False
  | (Pending, w1) | (Drained, w1) =>
      committed (database w1) = committed (database w) /\ pool w1 = pool w /\
      trace w1 = trace (snd (collect w)) /\ asked w1 = asked w /\
      drawn w1 = drawn w
  end.
Proof.
  intros Hp. unfold main_try, bind.
  destruct (collect_spec w) as [B Hc].
  destruct (collect w) as [[a|e|c| |] w1] eqn:C; cbn in B, Hc.
  - rewrite genApiKey_eq.
    pose proof (key_of_backend _ _ B) as Hk.
    apply backend_inv in B. destruct B as (R & D & F & A & Hn & Hd & P).
    set (w2 := set_drawn (drawn w1 + 24)%nat w1).
    assert (P2 : pool w2 = PoolOpen url None) by (cbn; congruence).
    pose proof (store_spec a (sha256Hex (key_of w1)) w2 url P2) as S.
    destruct (store a (sha256Hex (key_of w1)) w2) as [[tid|e| | |] w3]; try contradiction.
    + destruct S as (Ht & Hv & Hs & P3).
      destruct (report_spec a tid (key_of w1) w3) as (w4 & lines & Hr & B4 & _ & T4 & I4 & _).
      rewrite Hr. apply backend_inv in B4. destruct B4 as (_ & _ & _ & _ & _ & Hd4 & P4).
      exists a. cbn in Hs, Ht. unfold next_id in *. cbn in Ht.
      rewrite Hd4, P4, T4, <- Hk, Hs, Ht, Hd, Hn.
      repeat split; try assumption. apply in_or_app. right. exact I4.
    + destruct S as (Hs & (txn & P3) & Hval). cbn in Hs.
      split; [congruence|]. split; [eauto|].
      intros V. right. apply Hval. exact V.
  - apply backend_inv in B. destruct B as (_ & _ & _ & _ & _ & Hd & P).
    split; [congruence|]. split; [exists None; congruence|]. intros _. left. exact Hc.
  - contradiction.
  - apply backend_inv in B. destruct B as (_ & D & _ & A & _ & Hd & P).
    cbn. repeat split; congruence.
  - apply backend_inv in B. destruct B as (_ & D & _ & A & _ & Hd & P).
    cbn. repeat split; congruence.
Qed.

Lemma ready_pool (w : World) :
  pool (ready w) = PoolOpen (default [] (env_DATABASE_URL w)) None.
Proof. reflexivity. Qed.

(** Every run of [main]. *)
Lemma main_spec (w : World) :
  match main w with
  | (Value _, w') =>
      missing (env_DATABASE_URL w) = false /\
      (exists a,
         fst (collect (ready w)) = Value a /\
         Js.truthy (name a) = true /\
         Js.truthy (ghlApiKey a) = Js.truthy (ghlLocationId a) /\
         visible w' =
           stored (schema (database w)) (now w) a (sha256Hex (key_of w))
             (next_id w) (visible w)) /\
      pool w' = PoolEnded /\
      In (ELog (key_of w)) (trace w')
  | (Throw _, _) => False
  | (Exit c, w') =>
      c = 1%Z /\ visible w' = visible w /\ pool_closed w' = pool_closed (ready w) \/
      c = 1%Z /\ visible w' = visible w /\ missing (env_DATABASE_URL w) = true /\
        pool w' = pool w
  | (Pending, w') | (Drained, w') =>
      visible w' = visible w /\ pool w' = pool (ready w) /\
      asked w' = asked w /\ drawn w' = drawn w
  end.
Proof.
  destruct (missing (env_DATABASE_URL w)) eqn:Hm.
  - rewrite (main_missing w Hm). right. cbn. tauto.
  - rewrite (main_ready w Hm).
    pose proof (main_try_spec (ready w) _ (ready_pool w)) as S.
    unfold try_catch_finally, try_finally, try_catch.
    destruct (main_try (ready w)) as [[[]|e|c| |] w1]; try contradiction.
    + destruct S as (a & Ca & Hn & Hv & Hs & P1 & I1).
      unfold pool_end. rewrite P1. cbn.
      split; [reflexivity|]. split.
      * exists a. unfold visible. cbn. repeat split; assumption.
      * split; [reflexivity|]. apply in_or_app. left. exact I1.
    + destruct S as (Hs & (txn & P1) & _).
      destruct (main_catch_spec e w1) as (w2 & rb & Hc & _ & _ & Hd & Hcl & _).
      rewrite Hc. left. unfold visible. split; [reflexivity|].
      split; [rewrite Hd, Hs; reflexivity|].
      rewrite Hcl. unfold pool_closed. rewrite P1. reflexivity.
    + destruct S as (Hs & P & _ & A & D). unfold visible. tauto.
    + destruct S as (Hs & P & _ & A & D). unfold visible. tauto.
Qed.

Lemma guarded_value {A} (body : M A) (handler : Err -> M A) (w w1 : World) (a : A)
    (url : jsstring) (txn : option Tables) :
  body w = (Value a, w1) ->
  pool w1 = PoolOpen url txn ->
  try_catch_finally body handler pool_end w =
    (Value a, emit EPoolEnd (set_pool PoolEnded w1)).
Proof.
  intros Hb Hp. unfold try_catch_finally, try_finally, try_catch, pool_end.
  rewrite Hb, Hp. reflexivity.
Qed.

Lemma guarded_throw (w w1 : World) (e : Err) :
  main_try w = (Throw e, w1) ->
  try_catch_finally main_try main_catch pool_end w = main_catch e w1.
Proof.
  intros Hb. unfold try_catch_finally, try_finally, try_catch. rewrite Hb.
  destruct (main_catch_spec e w1) as (w2 & rb & -> & _). reflexivity.
Qed.

(** The run of valid answers against a database that serves every query. *)
Lemma main_success (w : World) (r1 r2 r3 r4 r5 r6 : jsstring)
    (d1 d2 d3 d4 d5 d6 : list jsstring) (rest : list (list jsstring)) :
  missing (env_DATABASE_URL w) = false ->
  stdin w = (r1 :: d1) :: (r2 :: d2) :: (r3 :: d3) :: (r4 :: d4) :: (r5 :: d5)
              :: (r6 :: d6) :: rest ->
  Js.truthy (Js.trim r1) = true ->
  Js.truthy (Js.trim r3) = Js.truthy (Js.trim r4) ->
  (forall n, faults w n = None) ->
  exists w',
    main w = (Value tt, w') /\
    visible w' =
      stored (schema (database w)) (now w) (answers r1 r2 r3 r4 r5 r6)
        (sha256Hex (key_of w)) (next_id w) (visible w) /\
    pool w' = PoolEnded /\
    In (ELog (key_of w)) (trace w').
Proof.
  intros Hm Hin Hn Hv Hf.
  set (url := default [] (env_DATABASE_URL w)).
  set (a := answers r1 r2 r3 r4 r5 r6).
  set (w1 := asked_all questions rest (ready w)).
  set (w2 := set_drawn (drawn w1 + 24)%nat w1).
  assert (C : collect (ready w) = (Value a, w1))
    by (apply (collect_six _ _ _ _ _ _ _ d1 d2 d3 d4 d5 d6); assumption).
  destruct (store_served a (sha256Hex (key_of w1)) w2 url eq_refl Hf Hv)
    as (w3 & Hs & Hc & Hp).
  destruct (report_spec a (next_id w2) (key_of w1) w3)
    as (w4 & lines & Hr & B4 & _ & T4 & I4 & _).
  apply backend_inv in B4. destruct B4 as (_ & _ & _ & _ & _ & Hd4 & P4).
  assert (T : main_try (ready w) = (Value tt, w4)).
  { unfold main_try.
    rewrite (bind_value _ _ _ _ _ C).
    rewrite (bind_value _ _ _ _ _ (genApiKey_eq w1)).
    fold w2. rewrite (bind_value _ _ _ _ _ Hs). exact Hr. }
  exists (emit EPoolEnd (set_pool PoolEnded w4)).
  split.
  - rewrite (main_ready w Hm).
    apply (guarded_value _ _ _ _ _ url None T). congruence.
  - split; [|split].
    + unfold visible. change (committed (database w4) = stored (schema (database w2))
        (now w2) a (sha256Hex (key_of w1)) (next_id w2) (committed (database w2))).
      rewrite Hd4. exact Hc.
    + reflexivity.
    + change (In (ELog (key_of w1)) (trace w4 ++ [EPoolEnd])).
      apply in_or_app. left. rewrite T4. apply in_or_app. right. exact I4.
Qed.

(** ** Closed forms shared by the statements below *)

Lemma asked_all_trace (qs : list jsstring) (rest : list (list jsstring)) (w : World) :
  trace (asked_all qs rest w) = trace w ++ List.map EPrompt qs.
Proof.
  unfold asked_all. cbn. revert w.
  induction qs as [|q qs IH]; intros w; cbn.
  - rewrite app_nil_r. reflexivity.
  - rewrite IH. cbn. rewrite <- app_assoc. reflexivity.
Qed.

(** The transaction in closed form, for every pattern of rejected queries:
    what is sent, and how it ends. *)
Lemma store_protocol (a : Answers) (h : jsstring) (w : World) (url : jsstring) :
  pool w = PoolOpen url None ->
  match store a h w with
  | (o, w1) =>
      trace w1 = trace w ++ sent (faults w) (asked w) (plan a h (next_id w)) /\
      asked w1 =
        (length (sent (faults w) (asked w) (plan a h (next_id w))) + asked w)%nat /\
      faults w1 = faults w /\
      o = match first_fault (faults w) (asked w) (length (plan a h (next_id w))) with
          | Some msg => Throw (DbError msg)
          | None =>
              if xorb (Js.truthy (ghlApiKey a)) (Js.truthy (ghlLocationId a))
              then Throw both_required
              else Value (next_id w)
          end
  end.
Proof.
  intros Hp.
  unfold store, bind, pool_query, first_id, ret, throw, next_id, plan.
  rewrite Hp.
  destruct (Js.truthy (ghlApiKey a)), (Js.truthy (ghlLocationId a));
    crunch; cbn; rewrite <- ?app_assoc; repeat split; reflexivity.
Qed.

(** The report: twelve lines, the key alone on the seventh and after
    [Authorization: Bearer ] on the ninth, and the note about skipped
    third-party values as a thirteenth line exactly when one is missing. *)
Lemma report_lines (a : Answers) (tid key : jsstring) (w : World) :
  exists w1 lines,
    report a tid key w = (Value tt, w1) /\
    trace w1 = trace w ++ List.map ELog lines /\
    length lines =
      (if Js.truthy (ghlApiKey a) && Js.truthy (ghlLocationId a) then 12 else 13)%nat /\
    nth 6 lines [] = key /\
    nth 8 lines [] = Js.lit "Authorization: Bearer " ++ key /\
    nth 3 lines [] = Js.lit "Tenant ID:  " ++ tid /\
    backend w1 = backend w.
Proof.
  unfold report, bind, console_log, ret.
  destruct (Js.truthy (ghlApiKey a)), (Js.truthy (ghlLocationId a)); cbn;
    eexists; eexists; (split; [reflexivity|]); cbn; rewrite <- ?app_assoc; cbn.
  all: split; [ match goal with
                | |- _ ++ ?l = _ =>
                    let r := constr:(List.map (fun e => match e with ELog s => s | _ => [] end) l) in
                    let r' := eval cbn in r in
                    instantiate (1 := r'); reflexivity
                end | repeat split ].
Qed.

Lemma main_try_six (w : World) (r1 r2 r3 r4 r5 r6 : jsstring)
    (d1 d2 d3 d4 d5 d6 : list jsstring) (rest : list (list jsstring)) :
  stdin w = (r1 :: d1) :: (r2 :: d2) :: (r3 :: d3) :: (r4 :: d4) :: (r5 :: d5)
              :: (r6 :: d6) :: rest ->
  Js.truthy (Js.trim r1) = true ->
  main_try w =
    match store (answers r1 r2 r3 r4 r5 r6) (sha256Hex (key_of w))
            (set_drawn (drawn w + 24)%nat (asked_all questions rest w)) with
    | (Value tid, w3) => report (answers r1 r2 r3 r4 r5 r6) tid (key_of w) w3
    | (Throw e, w3) => (Throw e, w3)
    | (Exit c, w3) => (Exit c, w3)
    | (Pending, w3) => (Pending, w3)
    | (Drained, w3) => (Drained, w3)
    end.
Proof.
  intros Hin Hn. unfold main_try.
  rewrite (bind_value _ _ _ _ _
             (collect_six w r1 r2 r3 r4 r5 r6 d1 d2 d3 d4 d5 d6 rest Hin Hn)).
  rewrite (bind_value _ _ _ _ _ (genApiKey_eq (asked_all questions rest w))).
  reflexivity.
Qed.

Lemma set_drawn_trace (n : nat) (w : World) : trace (set_drawn n w) = trace w.
Proof. reflexivity. Qed.

Lemma ready_trace (w : World) :
  trace (ready w) = trace w ++ [ENewPool (default [] (env_DATABASE_URL w)) 1].
Proof. reflexivity. Qed.

(** A throw of the [try] block ends the run in the handler. *)
Lemma failed_try_exits (w : World) (e : Err) (w1 : World) :
  missing (env_DATABASE_URL w) = false ->
  main_try (ready w) = (Throw e, w1) ->
  exists w',
    main w = (Exit 1%Z, w') /\
    trace w' =
      trace w1 ++
        [EQuery Rollback (bool_decide (faults w1 (asked w1) = None));
         EErr (failure_line e);
         EExit 1] /\
    visible w' = visible w /\
    pool_closed w' = false.
Proof.
  intros Hm Ht.
  pose proof (main_try_spec (ready w) _ (ready_pool w)) as S.
  rewrite Ht in S. destruct S as (Hs & (txn & Hp) & _).
  rewrite (main_ready w Hm), (guarded_throw _ _ _ Ht).
  destruct (main_catch_spec e w1) as (w2 & rb & Hc & Htr & Hrb & Hd & Hcl & _).
  rewrite Hp in Hrb. subst rb.
  exists w2. rewrite Hc. split; [reflexivity|]. split; [exact Htr|]. split.
  - unfold visible. rewrite Hd, Hs. reflexivity.
  - rewrite Hcl. unfold pool_closed. rewrite Hp. reflexivity.
Qed.

Lemma byte_bound (x : N) : N.land x 0xFF < 256.
Proof.
  change 0xFF with (N.ones 8). rewrite N.land_ones.
  apply N.mod_lt. discriminate.
Qed.

(** ** Trimming *)

Lemma trimStart_split (s : jsstring) :
  exists pre,
    s = pre ++ Js.trimStart s /\
    Js.blank pre = true /\
    forall c r, Js.trimStart s = c :: r -> Js.is_space c = false.
Proof.
  induction s as [|c s (pre & Hs & Hb & Hh)]; cbn.
  - exists []. repeat split. discriminate.
  - destruct (Js.is_space c) eqn:Hc.
    + exists (c :: pre). split; [cbn; congruence|].
      split; [unfold Js.blank in *; cbn; rewrite Hc; exact Hb | exact Hh].
    + exists []. repeat split. intros c' r [= <- _]. exact Hc.
Qed.

Lemma blank_rev (s : jsstring) : Js.blank (rev s) = Js.blank s.
Proof.
  unfold Js.blank. induction s as [|c s IH]; cbn; [reflexivity|].
  rewrite forallb_app, IH. cbn. rewrite andb_true_r. apply andb_comm.
Qed.

Lemma trimEnd_split (s : jsstring) :
  exists post,
    s = Js.trimEnd s ++ post /\
    Js.blank post = true /\
    forall c r, rev (Js.trimEnd s) = c :: r -> Js.is_space c = false.
Proof.
  unfold Js.trimEnd.
  destruct (trimStart_split (rev s)) as (pre & Hs & Hb & Hh).
  exists (rev pre). split.
  - rewrite <- rev_app_distr, <- Hs, rev_involutive. reflexivity.
  - split; [rewrite blank_rev; exact Hb|].
    intros c r. rewrite rev_involutive. apply Hh.
Qed.

(** The trimmed string is the line without the white space at its two
    ends: what is cut off is white space only, and what is left neither
    starts nor ends with white space. *)
Lemma trim_split (s : jsstring) :
  exists pre post,
    s = pre ++ Js.trim s ++ post /\
    Js.blank pre = true /\
    Js.blank post = true /\
    (forall c r, Js.trim s = c :: r -> Js.is_space c = false) /\
    (forall c r, rev (Js.trim s) = c :: r -> Js.is_space c = false).
Proof.
  unfold Js.trim.
  destruct (trimStart_split s) as (pre & Hs & Hb & Hh).
  destruct (trimEnd_split (Js.trimStart s)) as (post & Hs' & Hb' & Hh').
  exists pre, post. split; [rewrite <- Hs'; exact Hs|].
  split; [exact Hb|]. split; [exact Hb'|]. split; [|exact Hh'].
  intros c r Hc. apply (Hh c (r ++ post)). rewrite Hs', Hc. reflexivity.
Qed.

Lemma trim_idempotent (s : jsstring) : Js.trim (Js.trim s) = Js.trim s.
Proof.
  destruct (trim_split s) as (_ & _ & _ & _ & _ & Hh & Hl).
  set (t := Js.trim s) in *. unfold Js.trim, Js.trimEnd.
  assert (H1 : Js.trimStart t = t).
  { destruct t as [|c r]; [reflexivity|]. cbn. rewrite (Hh c r eq_refl). reflexivity. }
  rewrite H1.
  assert (H2 : Js.trimStart (rev t) = rev t).
  { destruct (rev t) as [|c r] eqn:E; [reflexivity|]. cbn.
    rewrite (Hl c r eq_refl). reflexivity. }
  rewrite H2. apply rev_involutive.
Qed.


(** ** The first rejected query *)

Lemma first_fault_some (f : nat -> option jsstring) (k n i : nat) (msg : jsstring) :
  (i < k)%nat ->
  (forall j, (j < i)%nat -> f (n + j)%nat = None) ->
  f (n + i)%nat = Some msg ->
  first_fault f n k = Some msg.
Proof.
  revert n i. induction k as [|k IH]; intros n i Hi Hbefore Hat; [lia|]. cbn.
  destruct i as [|i].
  - rewrite Nat.add_0_r in Hat. rewrite Hat. reflexivity.
  - pose proof (Hbefore 0%nat ltac:(lia)) as H0. rewrite Nat.add_0_r in H0. rewrite H0.
    apply (IH (S n) i); [lia| |].
    + intros j Hj. replace (S n + j)%nat with (n + S j)%nat by lia. apply Hbefore. lia.
    + replace (S n + i)%nat with (n + S i)%nat by lia. exact Hat.
Qed.

(** Some query among the [k] is rejected exactly when there is a first such. *)
Lemma first_fault_any (f : nat -> option jsstring) (k n i : nat) (msg : jsstring) :
  (i < k)%nat ->
  f (n + i)%nat = Some msg ->
  exists msg', first_fault f n k = Some msg'.
Proof.
  intros Hi Hat. destruct (first_fault f n k) as [m|] eqn:E; [eauto|].
  exfalso. revert n i Hi Hat E.
  induction k as [|k IH]; intros n i Hi Hat E; [lia|]. cbn in E.
  destruct (f n) as [m|] eqn:F; [discriminate|].
  destruct i as [|i].
  - rewrite Nat.add_0_r in Hat. congruence.
  - apply (IH (S n) i); [lia| |exact E].
    replace (S n + i)%nat with (n + S i)%nat by lia. exact Hat.
Qed.

(** ** A run on six answers, in closed form *)

(** With [DATABASE_URL] set, six answers that each arrive for their question
    and a tenant name: how [main] ends, its whole trace and the committed
    tables, for every pattern of rejected queries. *)
Lemma run_six (w : World) (r1 r2 r3 r4 r5 r6 : jsstring)
    (d1 d2 d3 d4 d5 d6 : list jsstring) (rest : list (list jsstring)) :
  missing (env_DATABASE_URL w) = false ->
  stdin w = (r1 :: d1) :: (r2 :: d2) :: (r3 :: d3) :: (r4 :: d4) :: (r5 :: d5)
              :: (r6 :: d6) :: rest ->
  Js.truthy (Js.trim r1) = true ->
  let a := answers r1 r2 r3 r4 r5 r6 in
  let stmts := plan a (sha256Hex (key_of w)) (next_id w) in
  let queries := sent (faults w) (asked w) stmts in
  let rollback :=
    EQuery Rollback (bool_decide (faults w (length queries + asked w)%nat = None)) in
  exists ending,
    trace (snd (main w)) =
      trace w ++ [ENewPool (default [] (env_DATABASE_URL w)) 1] ++
        List.map EPrompt questions ++ queries ++ ending /\
    match first_fault (faults w) (asked w) (length stmts) with
    | Some msg =>
        fst (main w) = Exit 1%Z /\
        ending = [rollback; EErr (failure_line (DbError msg)); EExit 1] /\
        visible (snd (main w)) = visible w
    | None =>
        if xorb (Js.truthy (Js.trim r3)) (Js.truthy (Js.trim r4))
        then fst (main w) = Exit 1%Z /\
             ending = [rollback; EErr (failure_line both_required); EExit 1] /\
             visible (snd (main w)) = visible w
        else fst (main w) = Value tt /\
             (exists lines,
                ending = List.map ELog lines ++ [EPoolEnd] /\
                length lines = (if Js.truthy (Js.trim r3) then 12 else 13)%nat /\
                nth 6 lines [] = key_of w) /\
             visible (snd (main w)) =
               stored (schema (database w)) (now w) a (sha256Hex (key_of w))
                 (next_id w) (visible w)
    end.
Proof.
  intros Hm Hin Hn a stmts queries rollback.
  set (url := default [] (env_DATABASE_URL w)).
  set (w1 := asked_all questions rest (ready w)).
  set (w2 := set_drawn (drawn (ready w) + 24)%nat w1).
  pose proof (main_try_six (ready w) r1 r2 r3 r4 r5 r6 d1 d2 d3 d4 d5 d6 rest Hin Hn) as T.
  fold a w1 w2 in T. change (key_of (ready w)) with (key_of w) in T.
  pose proof (store_protocol a (sha256Hex (key_of w)) w2 url eq_refl) as S.
  pose proof (store_spec a (sha256Hex (key_of w)) w2 url eq_refl) as S2.
  change (next_id w2) with (next_id w) in S.
  change (faults w2) with (faults w) in S.
  change (asked w2) with (asked w) in S.
  fold stmts in S. fold queries in S.
  assert (Tr2 : trace w2 = trace w ++ [ENewPool url 1] ++ List.map EPrompt questions).
  { unfold w2, w1. rewrite set_drawn_trace, asked_all_trace, ready_trace.
    rewrite <- app_assoc. reflexivity. }
  pose proof (main_spec w) as V.
  rewrite (main_ready w Hm) in V |- *.
  destruct (store a (sha256Hex (key_of w)) w2) as [o w3].
  destruct S as (Htr & Hasked & Hf & Ho).
  assert (Fail : forall e, o = Throw e ->
            fst (try_catch_finally main_try main_catch pool_end (ready w)) = Exit 1%Z /\
            trace (snd (try_catch_finally main_try main_catch pool_end (ready w))) =
              trace w ++ [ENewPool url 1] ++ List.map EPrompt questions ++ queries ++
                [rollback; EErr (failure_line e); EExit 1] /\
            visible (snd (try_catch_finally main_try main_catch pool_end (ready w))) =
              visible w).
  { intros e ->. destruct S2 as (_ & (txn & Hp3) & _).
    rewrite (guarded_throw _ _ _ T) in V |- *.
    destruct (main_catch_spec e w3) as (w4 & rb & Hc & Htr4 & Hrb & _).
    rewrite Hc in V |- *. split; [reflexivity|]. cbn [snd]. split.
    - rewrite Htr4, Hrb, Hp3, Htr, Tr2, Hf, Hasked, <- !app_assoc. reflexivity.
    - destruct V as [(_ & V & _)|(_ & V & _)]; exact V. }
  destruct (first_fault (faults w) (asked w) (length stmts)) as [msg|].
  - destruct (Fail _ Ho) as (F1 & F2 & F4).
    eexists. split; [exact F2|].
    split; [exact F1|]. split; [reflexivity | exact F4].
  - change (Js.truthy (Js.trim r3)) with (Js.truthy (ghlApiKey a)).
    change (Js.truthy (Js.trim r4)) with (Js.truthy (ghlLocationId a)).
    destruct (xorb (Js.truthy (ghlApiKey a)) (Js.truthy (ghlLocationId a))) eqn:X.
    + destruct (Fail _ Ho) as (F1 & F2 & F4).
      eexists. split; [exact F2|].
      split; [exact F1|]. split; [reflexivity | exact F4].
    + subst o. destruct S2 as (_ & _ & Hst & Hp3).
      destruct (report_lines a (next_id w) (key_of w) w3)
        as (w4 & lines & Hr & Htr4 & Hlen & Hkey & _ & _ & B4).
      rewrite Hr in T. apply backend_inv in B4.
      destruct B4 as (_ & _ & _ & _ & _ & D4 & P4).
      rewrite (guarded_value _ _ _ _ _ url None T) in V |- * by congruence.
      cbn [fst snd trace emit set_pool stdin].
      exists (List.map ELog lines ++ [EPoolEnd]). split.
      * rewrite Htr4, Htr, Tr2, <- !app_assoc. reflexivity.
      * split; [reflexivity|]. split.
        -- exists lines. split; [reflexivity|].
           split; [|exact Hkey]. rewrite Hlen.
           destruct (Js.truthy (ghlApiKey a)), (Js.truthy (ghlLocationId a));
             try discriminate; reflexivity.
        -- unfold visible. cbn [database emit set_pool]. rewrite D4. exact Hst.
Qed.

Lemma sent_first (f : nat -> option jsstring) (stmts : list Stmt) (n i : nat)
    (s : Stmt) (msg : jsstring) :
  nth_error stmts i = Some s ->
  (forall j, (j < i)%nat -> f (n + j)%nat = None) ->
  f (n + i)%nat = Some msg ->
  sent f n stmts =
    List.map (fun s => EQuery s true) (firstn i stmts) ++ [EQuery s false].
Proof.
  revert n i. induction stmts as [|s0 stmts IH]; intros n i Hnth Hbefore Hat.
  - destruct i; discriminate Hnth.
  - destruct i as [|i]; cbn in *.
    + injection Hnth as ->. rewrite Nat.add_0_r in Hat. rewrite Hat. reflexivity.
    + pose proof (Hbefore 0%nat ltac:(lia)) as H0. rewrite Nat.add_0_r in H0.
      rewrite H0. f_equal. apply (IH (S n) i Hnth).
      * intros j Hj. replace (S n + j)%nat with (n + S j)%nat by lia. apply Hbefore. lia.
      * replace (S n + i)%nat with (n + S i)%nat by lia. exact Hat.
Qed.

(** A blank tenant name: one question, the validation of line 45, the
    handler. *)
Lemma run_nameless (w : World) (r1 : jsstring) (d1 : list jsstring)
    (rest : list (list jsstring)) :
  missing (env_DATABASE_URL w) = false ->
  stdin w = (r1 :: d1) :: rest ->
  Js.truthy (Js.trim r1) = false ->
  exists w1 w',
    main_try (ready w) = (Throw name_required, w1) /\
    main w = (Exit 1%Z, w') /\
    trace w' =
      trace w1 ++
        [EQuery Rollback (bool_decide (faults w1 (asked w1) = None));
         EErr (failure_line name_required);
         EExit 1] /\
    visible w' = visible w.
Proof.
  intros Hm Hin Hn.
  assert (T : main_try (ready w) =
              (Throw name_required,
               asked_all [Js.lit "Tenant name (company): "] rest (ready w))).
  { unfold main_try. apply bind_throw.
    apply (collect_nameless (ready w) r1 d1 rest Hin Hn). }
  destruct (failed_try_exits w _ _ Hm T) as (w' & Hmain & Htr & Hvis & _).
  eexists. exists w'. split; [exact T|]. split; [exact Hmain|].
  split; [exact Htr | exact Hvis].
Qed.

(** ** The digits of a key *)

Lemma hex_digit_table (n : N) :
  n < 16 -> Js.hex_digit n = nth (N.to_nat n) (Js.lit "0123456789abcdef") 0.
Proof.
  intros H. destruct n as [|p]; [reflexivity|].
  do 4 (try (destruct p as [p|p|]; try reflexivity)).
  all: exfalso; revert H; unfold N.lt; cbn;
    repeat (rewrite ?Pos.compare_xI_xI, ?Pos.compare_xO_xO, ?Pos.compare_xI_xO,
              ?Pos.compare_xO_xI); destruct p; discriminate.
Qed.

Lemma hex_nth (bs : list N) (i : nat) :
  (i < length bs)%nat ->
  nth (2 * i) (Js.hex bs) 0 = Js.hex_digit (N.shiftr (N.land (nth i bs 0) 0xFF) 4) /\
  nth (2 * i + 1) (Js.hex bs) 0 = Js.hex_digit (N.land (nth i bs 0) 0xF).
Proof.
  unfold Js.hex. revert i. induction bs as [|b bs IH]; intros i Hi; cbn in Hi; [lia|].
  destruct i as [|i].
  - split; reflexivity.
  - replace (2 * S i)%nat with (S (S (2 * i))) by lia.
    replace (S (S (2 * i)) + 1)%nat with (S (S (2 * i + 1))) by lia.
    cbn [flat_map Js.hex_byte app nth]. apply IH. lia.
Qed.

Lemma nth_map_seq {A} (f : nat -> A) (a n i : nat) (d : A) :
  (i < n)%nat -> nth i (List.map f (seq a n)) d = f (a + i)%nat.
Proof.
  revert a i. induction n as [|n IH]; intros a i Hi; [lia|].
  destruct i as [|i]; cbn.
  - rewrite Nat.add_0_r. reflexivity.
  - rewrite IH by lia. f_equal. lia.
Qed.

Lemma key_bytes_nth (w : World) (i : nat) :
  (i < 24)%nat ->
  nth i (key_bytes w) 0 = random w (drawn w + i)%nat mod 256.
Proof.
  intros Hi. unfold key_bytes. rewrite (nth_map_seq _ 0%nat 24 i 0 Hi).
  change 0xFF with (N.ones 8). rewrite N.land_ones. reflexivity.
Qed.

(** The two digits that stand for the [i]-th byte of the key. *)
Lemma key_digits (w : World) (i : nat) :
  (i < 24)%nat ->
  nth (2 * i) (key_of w) 0 =
    nth (N.to_nat (random w (drawn w + i)%nat mod 256 / 16))
      (Js.lit "0123456789abcdef") 0 /\
  nth (2 * i + 1) (key_of w) 0 =
    nth (N.to_nat (random w (drawn w + i)%nat mod 16))
      (Js.lit "0123456789abcdef") 0.
Proof.
  intros Hi. unfold key_of.
  destruct (hex_nth (key_bytes w) i) as (H1 & H2);
    [rewrite key_bytes_length; exact Hi|].
  rewrite H1, H2, (key_bytes_nth w i Hi).
  set (x := random w (drawn w + i)%nat).
  assert (B : x mod 256 < 256) by (apply N.mod_lt; discriminate).
  assert (E1 : N.shiftr (N.land (x mod 256) 0xFF) 4 = x mod 256 / 16).
  { change 0xFF with (N.ones 8). rewrite N.land_ones, N.shiftr_div_pow2.
    change (2 ^ 8) with 256. change (2 ^ 4) with 16.
    rewrite (N.mod_small (x mod 256)) by exact B. reflexivity. }
  assert (E2 : N.land (x mod 256) 0xF = x mod 16).
  { change 0xF with (N.ones 4). rewrite N.land_ones. change (2 ^ 4) with 16.
    change 256 with (16 * 16).
    rewrite N.Div0.mod_mul_r, (N.mul_comm 16), N.Div0.mod_add.
    apply N.Div0.mod_mod. }
  rewrite E1, E2. split; apply hex_digit_table.
  - apply N.Div0.div_lt_upper_bound. exact B.
  - apply N.mod_lt. discriminate.
Qed.

(** ** The lines behind the answers *)

(** The answers of a collector that returns are those of the six lines its
    questions got to read. *)
Lemma collect_value (w : World) (a : Answers) :
  fst (collect w) = Value a ->
  exists r1 r2 r3 r4 r5 r6,
    read_lines 6 (stdin w) = Some [r1; r2; r3; r4; r5; r6] /\
    Js.truthy (Js.trim r1) = true /\
    a = answers r1 r2 r3 r4 r5 r6.
Proof.
  rewrite collect_outcome. unfold unanswered.
  destruct (read_line (stdin w)) as [[r1 i1]|] eqn:E1;
    [|destruct (stdin_closed w); discriminate].
  destruct (Js.truthy (Js.trim r1)) eqn:T; [|discriminate].
  destruct (read_line i1) as [[r2 i2]|] eqn:E2;
    [|destruct (stdin_closed w); discriminate].
  destruct (read_line i2) as [[r3 i3]|] eqn:E3;
    [|destruct (stdin_closed w); discriminate].
  destruct (read_line i3) as [[r4 i4]|] eqn:E4;
    [|destruct (stdin_closed w); discriminate].
  destruct (read_line i4) as [[r5 i5]|] eqn:E5;
    [|destruct (stdin_closed w); discriminate].
  destruct (read_line i5) as [[r6 i6]|] eqn:E6;
    [|destruct (stdin_closed w); discriminate].
  intros [= <-]. exists r1, r2, r3, r4, r5, r6.
  split; [|split; [exact T | reflexivity]].
  cbn [read_lines]. rewrite E1, E2, E3, E4, E5, E6. reflexivity.
Qed.

(** A collector that finds fewer than six lines, the first of them not
    blank, is left without an answer. *)
Lemma collect_unanswered (w : World) :
  (forall r i, read_line (stdin w) = Some (r, i) -> Js.truthy (Js.trim r) = true) ->
  read_lines 6 (stdin w) = None ->
  fst (collect w) = unanswered w.
Proof.
  intros Hn Hl. rewrite collect_outcome. cbn [read_lines] in Hl.
  destruct (read_line (stdin w)) as [[r1 i1]|] eqn:E1; [|reflexivity].
  rewrite (Hn r1 i1 eq_refl).
  destruct (read_line i1) as [[r2 i2]|] eqn:E2; [|reflexivity].
  destruct (read_line i2) as [[r3 i3]|] eqn:E3; [|reflexivity].
  destruct (read_line i3) as [[r4 i4]|] eqn:E4; [|reflexivity].
  destruct (read_line i4) as [[r5 i5]|] eqn:E5; [|reflexivity].
  destruct (read_line i5) as [[r6 i6]|] eqn:E6; [|reflexivity].
  discriminate Hl.
Qed.

(** ** What a committed run leaves in the tables *)

Lemma stored_tenants (sch : Schema) (now : Z) (a : Answers) (h tid : jsstring)
    (t : Tables) :
  tenants (stored sch now a h tid t) =
  tenants t ++ [{| tenant_id := tid; tenant_name := name a |}].
Proof. unfold stored. destruct (Js.truthy (ghlApiKey a)); reflexivity. Qed.

Lemma stored_api_keys (sch : Schema) (now : Z) (a : Answers) (h tid : jsstring)
    (t : Tables) :
  api_keys (stored sch now a h tid t) =
  api_keys t ++ [{| key_tenant_id := tid; key_hash := h; key_label := label a |}].
Proof. unfold stored. destruct (Js.truthy (ghlApiKey a)); reflexivity. Qed.

Lemma stored_secrets (sch : Schema) (now : Z) (a : Answers) (h tid : jsstring)
    (t : Tables) :
  tenant_secrets (stored sch now a h tid t) =
  if Js.truthy (ghlApiKey a)
  then <[tid := upsert_row sch now (tenant_secrets t !! tid) (ghlApiKey a)
                  (ghlLocationId a) (ghlBaseUrl a) (ghlVersion a)]>
         (tenant_secrets t)
  else tenant_secrets t.
Proof. unfold stored. destruct (Js.truthy (ghlApiKey a)); reflexivity. Qed.

(** ** The claims *)

(** C1.  A run is given six answers, each the first line its question
    gets to read.  When they are valid (a tenant name, and both third-party
    values or neither) and every query is served, the run returns and has
    committed exactly one new row in [tenants], exactly one new row in
    [api_keys], and in [tenant_secrets] either nothing (no third-party
    values) or the one row of the new tenant.  When a step fails (the name is
    blank, exactly one third-party value is given, or one of the statements
    of the transaction is rejected) the run does not return: it exits with
    code 1 and the committed tables are what they were.  For every run
    whatsoever: one that does not return leaves the committed tables as they
    were, and one that returns has read six lines, valid ones, and has added
    the one row they stand for to [tenants], the one row to [api_keys], and
    to [tenant_secrets] nothing or the one row under the new identifier. *)
Theorem C1_all_or_nothing (w : World) :
  (forall (r1 r2 r3 r4 r5 r6 : jsstring) (d1 d2 d3 d4 d5 d6 : list jsstring)
          (rest : list (list jsstring)),
     missing (env_DATABASE_URL w) = false ->
     stdin w = (r1 :: d1) :: (r2 :: d2) :: (r3 :: d3) :: (r4 :: d4) :: (r5 :: d5)
                 :: (r6 :: d6) :: rest ->
     Js.truthy (Js.trim r1) = true ->
     Js.truthy (Js.trim r3) = Js.truthy (Js.trim r4) ->
     (forall n, faults w n = None) ->
     exists w',
       main w = (Value tt, w') /\
       tenants (visible w') =
         tenants (visible w) ++
           [{| tenant_id := next_id w; tenant_name := Js.trim r1 |}] /\
       api_keys (visible w') =
         api_keys (visible w) ++
           [{| key_tenant_id := next_id w;
               key_hash := sha256Hex (key_of w);
               key_label := Js.or_else (Js.trim r2) (Js.lit "primary") |}] /\
       tenant_secrets (visible w') =
         if Js.truthy (Js.trim r3)
         then <[next_id w :=
                  upsert_row (schema (database w)) (now w)
                    (tenant_secrets (visible w) !! next_id w)
                    (Js.trim r3) (Js.trim r4)
                    (Js.or_else (Js.trim r5) (Js.lit "https://services.leadconnectorhq.com"))
                    (Js.or_else (Js.trim r6) (Js.lit "2021-07-28"))]>
                (tenant_secrets (visible w))
         else tenant_secrets (visible w))
  /\
  (forall (r1 r2 r3 r4 r5 r6 : jsstring) (d1 d2 d3 d4 d5 d6 : list jsstring)
          (rest : list (list jsstring)),
     missing (env_DATABASE_URL w) = false ->
     stdin w = (r1 :: d1) :: (r2 :: d2) :: (r3 :: d3) :: (r4 :: d4) :: (r5 :: d5)
                 :: (r6 :: d6) :: rest ->
     Js.truthy (Js.trim r1) = false \/
     Js.truthy (Js.trim r3) <> Js.truthy (Js.trim r4) \/
     (exists (i : nat) (msg : jsstring),
        (i < (if Js.truthy (Js.trim r3) then 5 else 4))%nat /\
        faults w (asked w + i)%nat = Some msg) ->
     fst (main w) = Exit 1%Z /\
     exit_code (fst (main w)) = Some 1%Z /\
     visible (snd (main w)) = visible w)
  /\
  (fst (main w) <> Value tt -> visible (snd (main w)) = visible w)
  /\
  (forall w',
     main w = (Value tt, w') ->
     exists r1 r2 r3 r4 r5 r6 : jsstring,
       read_lines 6 (stdin w) = Some [r1; r2; r3; r4; r5; r6] /\
       Js.truthy (Js.trim r1) = true /\
       Js.truthy (Js.trim r3) = Js.truthy (Js.trim r4) /\
       tenants (visible w') =
         tenants (visible w) ++
           [{| tenant_id := next_id w; tenant_name := Js.trim r1 |}] /\
       api_keys (visible w') =
         api_keys (visible w) ++
           [{| key_tenant_id := next_id w;
               key_hash := sha256Hex (key_of w);
               key_label := Js.or_else (Js.trim r2) (Js.lit "primary") |}] /\
       tenant_secrets (visible w') =
         if Js.truthy (Js.trim r3)
         then <[next_id w :=
                  upsert_row (schema (database w)) (now w)
                    (tenant_secrets (visible w) !! next_id w)
                    (Js.trim r3) (Js.trim r4)
                    (Js.or_else (Js.trim r5) (Js.lit "https://services.leadconnectorhq.com"))
                    (Js.or_else (Js.trim r6) (Js.lit "2021-07-28"))]>
                (tenant_secrets (visible w))
         else tenant_secrets (visible w)).
Proof.
  split; [|split; [|split]].
  - intros r1 r2 r3 r4 r5 r6 d1 d2 d3 d4 d5 d6 rest Hm Hin Hn Hv Hf.
    destruct (main_success w r1 r2 r3 r4 r5 r6 d1 d2 d3 d4 d5 d6 rest Hm Hin Hn Hv Hf)
      as (w' & Hmain & Hvis & _).
    exists w'. split; [exact Hmain|].
    rewrite Hvis, stored_tenants, stored_api_keys, stored_secrets.
    repeat split; reflexivity.
  - intros r1 r2 r3 r4 r5 r6 d1 d2 d3 d4 d5 d6 rest Hm Hin Hfail.
    destruct (Js.truthy (Js.trim r1)) eqn:Hn.
    + destruct (run_six w r1 r2 r3 r4 r5 r6 d1 d2 d3 d4 d5 d6 rest Hm Hin Hn)
        as (ending & _ & R).
      cbv zeta in R.
      set (stmts := plan (answers r1 r2 r3 r4 r5 r6) (sha256Hex (key_of w)) (next_id w))
        in R.
      destruct (first_fault (faults w) (asked w) (length stmts)) as [msg|] eqn:F.
      { destruct R as (-> & _ & V). repeat split. exact V. }
      destruct (xorb (Js.truthy (Js.trim r3)) (Js.truthy (Js.trim r4))) eqn:X.
      { destruct R as (-> & _ & V). repeat split. exact V. }
      exfalso. destruct Hfail as [H|[H|(i & msg & Hi & Hat)]].
      * discriminate H.
      * destruct (Js.truthy (Js.trim r3)), (Js.truthy (Js.trim r4));
          try discriminate X; apply H; reflexivity.
      * assert (L : length stmts = if Js.truthy (Js.trim r3) then 5%nat else 4%nat).
        { unfold stmts, plan. cbn [ghlApiKey ghlLocationId answers].
          destruct (Js.truthy (Js.trim r3)), (Js.truthy (Js.trim r4));
            try discriminate X; reflexivity. }
        rewrite <- L in Hi.
        destruct (first_fault_any _ _ _ _ _ Hi Hat) as (m & Hm'). congruence.
    + destruct (run_nameless w r1 d1 _ Hm Hin Hn) as (w1 & w' & _ & -> & _ & V).
      repeat split. exact V.
  - intros Hne. pose proof (main_spec w) as S.
    destruct (main w) as [[[]|e|c| |] w']; cbn in *.
    + congruence.
    + contradiction.
    + destruct S as [(_ & S & _)|(_ & S & _)]; exact S.
    + apply S.
    + apply S.
  - intros w' Hmain. pose proof (main_spec w) as S. rewrite Hmain in S.
    destruct S as (_ & (a & Ha & Hn & Hv & Hvis) & _).
    destruct (collect_value _ _ Ha) as (r1 & r2 & r3 & r4 & r5 & r6 & Hl & _ & ->).
    exists r1, r2, r3, r4, r5, r6.
    split; [exact Hl|]. split; [exact Hn|]. split; [exact Hv|].
    rewrite Hvis, stored_tenants, stored_api_keys, stored_secrets.
    repeat split; reflexivity.
Qed.

Lemma C1_all_or_nothing_witness :
  (exists w',
     main Sample.returning = (Value tt, w') /\
     length (tenants (visible w')) = 2%nat /\
     length (api_keys (visible w')) = 2%nat) /\
  (fst (main Sample.deadlocked) = Exit 1%Z /\
   visible (snd (main Sample.deadlocked)) = committed Sample.db1).
Proof.
  split.
  - destruct (proj1 (C1_all_or_nothing Sample.returning)
                (Js.lit " Acme ") [] (Js.lit "key-1") (Js.lit "loc-1") [] []
                [] [] [] [] [] [] []
                eq_refl eq_refl eq_refl eq_refl (fun _ => eq_refl))
      as (w' & Hmain & Ht & Hk & _).
    exists w'. split; [exact Hmain|]. rewrite Ht, Hk. split; reflexivity.
  - destruct (proj1 (proj2 (C1_all_or_nothing Sample.deadlocked))
                (Js.lit " Acme ") [] (Js.lit "key-1") (Js.lit "loc-1") [] []
                [] [] [] [] [] [] []
                eq_refl eq_refl
                (or_intror (or_intror
                   (ex_intro _ 4%nat
                      (ex_intro _ (Js.lit "deadlock detected")
                         (conj (le_n 5) eq_refl))))))
      as (H & _ & V).
    split; [exact H | exact V].
Defined.

(** C4. Without [DATABASE_URL] the process prints the error, exits with
    code 1, and has neither constructed a pool nor sent a query. *)
Theorem C4_missing_database_url (w : World) :
  env_DATABASE_URL w = None ->
  exists w',
    main w = (Exit 1%Z, w') /\
    exit_code (fst (main w)) = Some 1%Z /\
    trace w' =
      trace w ++ [EErr ([0x274C] ++ Js.lit " Missing DATABASE_URL env var"); EExit 1] /\
    pool w' = pool w /\
    asked w' = asked w /\
    database w' = database w.
Proof.
  intros H.
  assert (Hm : missing (env_DATABASE_URL w) = true) by (rewrite H; reflexivity).
  rewrite (main_missing w Hm). eexists. split; [reflexivity|].
  cbn. rewrite <- app_assoc. repeat split; reflexivity.
Qed.

Lemma C4_missing_database_url_witness :
  exists w',
    main Sample.unconfigured =
      (Exit 1%Z, w') /\
    pool w' = NoPool /\ asked w' = 0%nat.
Proof.
  destruct (C4_missing_database_url
              Sample.unconfigured
              eq_refl)
    as (w' & Hmain & _ & _ & Hp & Ha & _).
  exists w'. repeat split; assumption.
Defined.

(** C5.  Whatever error the [try] block throws, and whether the rollback of
    the handler is served or rejected, the run ends with the line that
    carries the message of that error, whichever kind of error it is, and
    with exit code 1: a rejected rollback leaves no other mark than its query
    in the trace.  In particular, when a statement of the transaction is the
    first to be rejected, with message [msg], the trace of the run ends with
    that rejected statement, the rollback, served or not, the line made of
    the banner and [msg], and the exit. *)
Theorem C5_original_error_reported (w : World) :
  (forall (e : Err) (w1 : World),
     missing (env_DATABASE_URL w) = false ->
     main_try (ready w) = (Throw e, w1) ->
     exists w',
       main w = (Exit 1%Z, w') /\
       exit_code (fst (main w)) = Some 1%Z /\
       trace w' =
         trace w1 ++
           [EQuery Rollback (bool_decide (faults w1 (asked w1) = None));
            EErr (([10; 0x274C] ++ Js.lit " create-tenant failed:") ++ [32] ++
                  match e with
                  | Error m | TypeError m | DbError m => m
                  end);
            EExit 1])
  /\
  (forall (r1 r2 r3 r4 r5 r6 : jsstring) (d1 d2 d3 d4 d5 d6 : list jsstring)
          (rest : list (list jsstring)) (i : nat) (s : Stmt) (msg : jsstring),
     missing (env_DATABASE_URL w) = false ->
     stdin w = (r1 :: d1) :: (r2 :: d2) :: (r3 :: d3) :: (r4 :: d4) :: (r5 :: d5)
                 :: (r6 :: d6) :: rest ->
     Js.truthy (Js.trim r1) = true ->
     nth_error (plan (answers r1 r2 r3 r4 r5 r6) (sha256Hex (key_of w)) (next_id w)) i
       = Some s ->
     (forall j, (j < i)%nat -> faults w (asked w + j)%nat = None) ->
     faults w (asked w + i)%nat = Some msg ->
     fst (main w) = Exit 1%Z /\
     trace (snd (main w)) =
       trace w ++ [ENewPool (default [] (env_DATABASE_URL w)) 1] ++
         List.map EPrompt questions ++
         List.map (fun s => EQuery s true)
           (firstn i (plan (answers r1 r2 r3 r4 r5 r6) (sha256Hex (key_of w))
                        (next_id w))) ++
         [EQuery s false;
          EQuery Rollback (bool_decide (faults w (asked w + S i)%nat = None));
          EErr ([10; 0x274C] ++ Js.lit " create-tenant failed: " ++ msg);
          EExit 1]).
Proof.
  split.
  - intros e w1 Hm Ht.
    destruct (failed_try_exits w e w1 Hm Ht) as (w' & Hmain & Htr & _).
    exists w'. rewrite Hmain. repeat split. rewrite Htr.
    destruct e; reflexivity.
  - intros r1 r2 r3 r4 r5 r6 d1 d2 d3 d4 d5 d6 rest i s msg Hm Hin Hn Hnth Hbefore Hat.
    destruct (run_six w r1 r2 r3 r4 r5 r6 d1 d2 d3 d4 d5 d6 rest Hm Hin Hn)
      as (ending & Htr & R).
    cbv zeta in Htr, R.
    set (stmts := plan (answers r1 r2 r3 r4 r5 r6) (sha256Hex (key_of w)) (next_id w))
      in *.
    assert (Hi : (i < length stmts)%nat)
      by (apply nth_error_Some; rewrite Hnth; discriminate).
    rewrite (first_fault_some _ _ _ i msg Hi Hbefore Hat) in R.
    destruct R as (Hexit & -> & _).
    split; [exact Hexit|]. rewrite Htr.
    rewrite (sent_first _ _ _ i s msg Hnth Hbefore Hat).
    rewrite length_app, length_map. cbn [length].
    replace (length (firstn i stmts) + 1 + asked w)%nat with (asked w + S i)%nat
      by (rewrite length_firstn; lia).
    rewrite <- !app_assoc. reflexivity.
Qed.

Lemma C5_original_error_reported_witness :
  fst (main Sample.refused) = Exit 1%Z /\
  trace (snd (main Sample.refused)) =
    [ENewPool (Js.lit "postgres://localhost/app") 1] ++
      List.map EPrompt questions ++
      [EQuery Begin false;
       EQuery Rollback false;
       EErr ([10; 0x274C] ++ Js.lit " create-tenant failed: connection refused");
       EExit 1].
Proof.
  exact (proj2 (C5_original_error_reported Sample.refused)
           (Js.lit " Acme ") [] (Js.lit "key-1") (Js.lit "loc-1") [] []
           [] [] [] [] [] [] [] 0%nat Begin (Js.lit "connection refused")
           eq_refl eq_refl eq_refl eq_refl
           (fun j (H : (j < 0)%nat) => match Nat.nlt_0_r j H with end)
           eq_refl).
Defined.

(** C6.  The key is the hexadecimal text of 24 bytes taken from the random
    source: 48 characters, the two digits of the [i]-th byte, high half
    first, at positions [2i] and [2i+1], each taken from [0123456789abcdef].
    The digest stored with it is SHA-256 in hexadecimal, 64 digits for
    every input and the published digests on the test vectors, and in every
    run that returns, the last row of [api_keys] holds the digest of the very
    key the report printed. *)
Theorem C6_key_and_hash (w : World) :
  exists key : jsstring,
    genApiKey w = (Value key, set_drawn (drawn w + 24)%nat w) /\
    length key = 48%nat /\
    (forall i, (i < 24)%nat ->
       nth (2 * i) key 0 =
         nth (N.to_nat (random w (drawn w + i)%nat mod 256 / 16))
           (Js.lit "0123456789abcdef") 0 /\
       nth (2 * i + 1) key 0 =
         nth (N.to_nat (random w (drawn w + i)%nat mod 16))
           (Js.lit "0123456789abcdef") 0) /\
    (forall s : jsstring,
       length (sha256Hex s) = 64%nat /\
       forallb Js.is_hex_digit (sha256Hex s) = true) /\
    sha256Hex (Js.lit "abc") =
      Js.lit "ba7816bf8f01cfea414140de5dae2223b00361a396177a9cb410ff61f20015ad" /\
    sha256Hex (Js.lit "abcdbcdecdefdefgefghfghighijhijkijkljklmklmnlmnomnopnopq") =
      Js.lit "248d6a61d20638b8e5c026930c3e6039a33ce45964ff2167f6ecedd419db06c1" /\
    (forall w',
       main w = (Value tt, w') ->
       In (ELog key) (trace w') /\
       exists rows row,
         api_keys (visible w') = rows ++ [row] /\
         key_hash row = sha256Hex key).
Proof.
  exists (key_of w).
  split; [reflexivity|].
  split; [unfold key_of; rewrite hex_length; reflexivity|].
  split; [exact (key_digits w)|].
  split.
  { intros s. split; [apply sha256Hex_length | apply hex_digits]. }
  split; [vm_compute; reflexivity|]. split; [vm_compute; reflexivity|].
  intros w' Hmain. pose proof (main_spec w) as S. rewrite Hmain in S.
  destruct S as (_ & (a & _ & _ & _ & Hvis) & _ & Hin).
  split; [exact Hin|].
  rewrite Hvis, stored_api_keys. eexists. eexists. split; reflexivity.
Qed.

Lemma C6_key_and_hash_witness :
  exists key : jsstring,
    fst (genApiKey Sample.plain) = Value key /\
    firstn 6 key = Js.lit "030a11" /\
    In (ELog key) (trace (snd (main Sample.plain))) /\
    exists rows row,
      api_keys (visible (snd (main Sample.plain))) = rows ++ [row] /\
      key_hash row = sha256Hex key.
Proof.
  assert (H : main Sample.plain = (Value tt, snd (main Sample.plain)))
    by (vm_compute; reflexivity).
  destruct (C6_key_and_hash Sample.plain) as (key & Hg & _ & _ & _ & _ & _ & Hrun).
  exists key. split; [rewrite Hg; reflexivity|]. split.
  - assert (E : fst (genApiKey Sample.plain) = Value key) by (rewrite Hg; reflexivity).
    vm_compute in E. injection E as <-. reflexivity.
  - exact (Hrun _ H).
Defined.

(** C7 as stated fails.  A first run stores third-party values for its
    tenant; the script run again, later and with new third-party values,
    inserts another tenant and upserts under the identifier of that one:
    the row of the first tenant keeps its values and its [updated_at]. *)
Lemma C7_counterexample :
  fst (main (Sample.world Sample.full Sample.no_fault Sample.db0)) = Value tt /\
  tenant_secrets
    (visible (snd (main (Sample.world Sample.full Sample.no_fault Sample.db0))))
    !! Js.lit "t-1" =
    Some {| ghl_api_key := Js.lit "key-1";
            ghl_location_id := Js.lit "loc-1";
            ghl_base_url := Js.lit "https://services.leadconnectorhq.com";
            ghl_version := Js.lit "2021-07-28";
            updated_at := 100 |} /\
  stdin (Sample.second_run (Sample.world Sample.full Sample.no_fault Sample.db0)) =
    [[Js.lit "Acme"]; [[]]; [Js.lit "key-2"]; [Js.lit "loc-2"]; [[]]; [[]]] /\
  now (Sample.second_run (Sample.world Sample.full Sample.no_fault Sample.db0)) = 200%Z /\
  fst (main (Sample.second_run (Sample.world Sample.full Sample.no_fault Sample.db0))) =
    Value tt /\
  tenant_secrets
    (visible (snd (main (Sample.second_run
                           (Sample.world Sample.full Sample.no_fault Sample.db0)))))
    !! Js.lit "t-1" =
    Some {| ghl_api_key := Js.lit "key-1";
            ghl_location_id := Js.lit "loc-1";
            ghl_base_url := Js.lit "https://services.leadconnectorhq.com";
            ghl_version := Js.lit "2021-07-28";
            updated_at := 100 |} /\
  List.map tenant_id
    (tenants (visible (snd (main (Sample.second_run
                (Sample.world Sample.full Sample.no_fault Sample.db0)))))) =
    [Js.lit "t-1"; Js.lit "t-2"] /\
  List.map key_tenant_id
    (api_keys (visible (snd (main (Sample.second_run
                (Sample.world Sample.full Sample.no_fault Sample.db0)))))) =
    [Js.lit "t-1"; Js.lit "t-2"].
Proof.
  repeat split; vm_compute; reflexivity.
Qed.

(** C7, as the code has it.  The upsert is keyed by the identifier of the
    tenant row the same run has just inserted.  A run with both third-party
    values adds one tenant, one key under its identifier and the secret row
    under that identifier; that row carries the four values of the run, with
    the column default for [updated_at], the time of the run replacing it
    only if a row was already there under the new identifier.  Secret rows
    under any other identifier are as they were: when the new identifier is
    not that of an earlier tenant, every earlier tenant keeps its secret row,
    values and [updated_at], and the earlier rows of [tenants] and
    [api_keys] are unchanged. *)
Theorem C7_upsert_for_the_new_tenant (w : World) (r1 r2 r3 r4 r5 r6 : jsstring)
    (d1 d2 d3 d4 d5 d6 : list jsstring) (rest : list (list jsstring)) :
  missing (env_DATABASE_URL w) = false ->
  stdin w = (r1 :: d1) :: (r2 :: d2) :: (r3 :: d3) :: (r4 :: d4) :: (r5 :: d5)
              :: (r6 :: d6) :: rest ->
  Js.truthy (Js.trim r1) = true ->
  Js.truthy (Js.trim r3) = true ->
  Js.truthy (Js.trim r4) = true ->
  (forall n, faults w n = None) ->
  exists w',
    main w = (Value tt, w') /\
    tenants (visible w') =
      tenants (visible w) ++ [{| tenant_id := next_id w; tenant_name := Js.trim r1 |}] /\
    (exists k,
       api_keys (visible w') = api_keys (visible w) ++ [k] /\
       key_tenant_id k = next_id w) /\
    tenant_secrets (visible w') !! next_id w =
      Some {| ghl_api_key := Js.trim r3;
              ghl_location_id := Js.trim r4;
              ghl_base_url :=
                Js.or_else (Js.trim r5) (Js.lit "https://services.leadconnectorhq.com");
              ghl_version := Js.or_else (Js.trim r6) (Js.lit "2021-07-28");
              updated_at :=
                match tenant_secrets (visible w) !! next_id w with
                | Some _ => now w
                | None => updated_at_default (schema (database w)) (now w)
                end |} /\
    (forall tid, tid <> next_id w ->
       tenant_secrets (visible w') !! tid = tenant_secrets (visible w) !! tid) /\
    ((forall t, In t (tenants (visible w)) -> tenant_id t <> next_id w) ->
     forall t, In t (tenants (visible w)) ->
       tenant_secrets (visible w') !! tenant_id t =
       tenant_secrets (visible w) !! tenant_id t).
Proof.
  intros Hm Hin Hn H3 H4 Hf.
  destruct (main_success w r1 r2 r3 r4 r5 r6 d1 d2 d3 d4 d5 d6 rest Hm Hin Hn
              (eq_trans H3 (eq_sym H4)) Hf)
    as (w' & Hmain & Hvis & _).
  exists w'. split; [exact Hmain|].
  assert (Hs : tenant_secrets (visible w') =
               <[next_id w :=
                   upsert_row (schema (database w)) (now w)
                     (tenant_secrets (visible w) !! next_id w)
                     (Js.trim r3) (Js.trim r4)
                     (Js.or_else (Js.trim r5) default_base_url)
                     (Js.or_else (Js.trim r6) default_version)]>
                 (tenant_secrets (visible w))).
  { rewrite Hvis, stored_secrets. cbn [ghlApiKey answers]. rewrite H3. reflexivity. }
  assert (Hother : forall tid, tid <> next_id w ->
            tenant_secrets (visible w') !! tid = tenant_secrets (visible w) !! tid).
  { intros tid Hne. rewrite Hs. apply lookup_insert_ne. congruence. }
  split; [rewrite Hvis, stored_tenants; reflexivity|].
  split; [rewrite Hvis, stored_api_keys; eexists; split; reflexivity|].
  split; [rewrite Hs, lookup_insert_eq; reflexivity|].
  split; [exact Hother|].
  intros Hfresh t Ht. apply Hother, Hfresh, Ht.
Qed.

Lemma C7_upsert_for_the_new_tenant_witness :
  exists w',
    main (Sample.second_run (Sample.world Sample.full Sample.no_fault Sample.db0)) =
      (Value tt, w') /\
    tenant_secrets (visible w') !! Js.lit "t-2" =
      Some {| ghl_api_key := Js.lit "key-2";
              ghl_location_id := Js.lit "loc-2";
              ghl_base_url := Js.lit "https://services.leadconnectorhq.com";
              ghl_version := Js.lit "2021-07-28";
              updated_at := 200 |} /\
    tenant_secrets (visible w') !! Js.lit "t-1" =
      tenant_secrets
        (visible (Sample.second_run (Sample.world Sample.full Sample.no_fault Sample.db0)))
        !! Js.lit "t-1".
Proof.
  destruct (C7_upsert_for_the_new_tenant
              (Sample.second_run (Sample.world Sample.full Sample.no_fault Sample.db0))
              (Js.lit "Acme") [] (Js.lit "key-2") (Js.lit "loc-2") [] []
              [] [] [] [] [] [] []
              eq_refl eq_refl eq_refl eq_refl eq_refl (fun _ => eq_refl))
    as (w' & Hmain & _ & _ & Hrow & Hother & _).
  exists w'. split; [exact Hmain|]. split.
  - assert (E : next_id (Sample.second_run
                           (Sample.world Sample.full Sample.no_fault Sample.db0)) =
                Js.lit "t-2") by (vm_compute; reflexivity).
    rewrite E in Hrow. rewrite Hrow. vm_compute. reflexivity.
  - apply Hother. vm_compute. discriminate.
Defined.

(** C2, as the code has it.  With six answers of which exactly one of the
    two third-party values is blank, the [try] block throws, the handler
    sends a rollback and reports the error, the process exits with code 1
    and the committed tables are what they were.  The error thrown and
    reported is the validation of line 45 when the tenant name is blank;
    otherwise it is the rejection of the first rejected query among [begin]
    and the two inserts, and the validation of line 80 when the three are
    served. *)
Theorem C2_partial_credentials (w : World) (r1 r2 r3 r4 r5 r6 : jsstring)
    (d1 d2 d3 d4 d5 d6 : list jsstring) (rest : list (list jsstring)) :
  missing (env_DATABASE_URL w) = false ->
  stdin w = (r1 :: d1) :: (r2 :: d2) :: (r3 :: d3) :: (r4 :: d4) :: (r5 :: d5)
              :: (r6 :: d6) :: rest ->
  Js.truthy (Js.trim r3) <> Js.truthy (Js.trim r4) ->
  exists (e : Err) (m : jsstring) (w1 w' : World),
    main_try (ready w) = (Throw e, w1) /\
    main w = (Exit 1%Z, w') /\
    exit_code (fst (main w)) = Some 1%Z /\
    visible w' = visible w /\
    trace w' =
      trace w1 ++
        [EQuery Rollback (bool_decide (faults w1 (asked w1) = None));
         EErr (([10; 0x274C] ++ Js.lit " create-tenant failed:") ++ [32] ++ m);
         EExit 1] /\
    (e, m) =
      if Js.truthy (Js.trim r1)
      then
        match faults w (asked w) with
        | Some x => (DbError x, x)
        | None =>
            match faults w (S (asked w)) with
            | Some x => (DbError x, x)
            | None =>
                match faults w (S (S (asked w))) with
                | Some x => (DbError x, x)
                | None =>
                    (Error (Js.lit "If you provide GHL credentials, you must provide BOTH API key and Location ID."),
                     Js.lit "If you provide GHL credentials, you must provide BOTH API key and Location ID.")
                end
            end
        end
      else (Error (Js.lit "Tenant name is required."),
            Js.lit "Tenant name is required.").
Proof.
  intros Hm Hin Hv.
  assert (T : exists e m w1,
             main_try (ready w) = (Throw e, w1) /\
             message e = m /\
             (e, m) =
               if Js.truthy (Js.trim r1)
               then
                 match faults w (asked w) with
                 | Some x => (DbError x, x)
                 | None =>
                     match faults w (S (asked w)) with
                     | Some x => (DbError x, x)
                     | None =>
                         match faults w (S (S (asked w))) with
                         | Some x => (DbError x, x)
                         | None => (both_required, message both_required)
                         end
                     end
                 end
               else (name_required, message name_required)).
  { destruct (Js.truthy (Js.trim r1)) eqn:Hn.
    - set (a := answers r1 r2 r3 r4 r5 r6).
      set (url := default [] (env_DATABASE_URL w)).
      set (w1 := asked_all questions rest (ready w)).
      set (w2 := set_drawn (drawn (ready w) + 24)%nat w1).
      pose proof (main_try_six (ready w) r1 r2 r3 r4 r5 r6 d1 d2 d3 d4 d5 d6 rest
                    Hin Hn) as T.
      fold a w1 w2 in T.
      pose proof (store_protocol a (sha256Hex (key_of (ready w))) w2 url eq_refl) as S.
      assert (L : length (plan a (sha256Hex (key_of (ready w))) (next_id w2)) = 3%nat).
      { unfold plan. cbn [ghlApiKey ghlLocationId a answers].
        destruct (Js.truthy (Js.trim r3)), (Js.truthy (Js.trim r4));
          try reflexivity; exfalso; apply Hv; reflexivity. }
      assert (X : xorb (Js.truthy (ghlApiKey a)) (Js.truthy (ghlLocationId a)) = true).
      { cbn [ghlApiKey ghlLocationId a answers].
        destruct (Js.truthy (Js.trim r3)), (Js.truthy (Js.trim r4));
          try reflexivity; exfalso; apply Hv; reflexivity. }
      rewrite L, X in S. cbn [first_fault] in S.
      change (faults w2) with (faults w) in S.
      change (asked w2) with (asked w) in S.
      destruct (store a (sha256Hex (key_of (ready w))) w2) as [o w3].
      destruct S as (_ & _ & _ & Ho).
      destruct (faults w (asked w)) as [x0|];
        [|destruct (faults w (S (asked w))) as [x1|];
          [|destruct (faults w (S (S (asked w)))) as [x2|]]];
        subst o; eexists; eexists; exists w3;
        (split; [exact T|]); split; reflexivity.
    - destruct (run_nameless w r1 d1 _ Hm Hin Hn) as (w1 & w' & T & _).
      exists name_required, (message name_required), w1.
      split; [exact T|]. split; reflexivity. }
  destruct T as (e & m & w1 & Ht & Hmsg & Hem).
  destruct (failed_try_exits w e w1 Hm Ht) as (w' & Hmain & Htr & Hvis & _).
  exists e, m, w1, w'. rewrite Hmain.
  split; [exact Ht|]. split; [reflexivity|]. split; [reflexivity|].
  split; [exact Hvis|]. split; [rewrite Htr, <- Hmsg; reflexivity | exact Hem].
Qed.

Lemma C2_partial_credentials_witness :
  exists w',
    main Sample.one_sided = (Exit 1%Z, w') /\
    visible w' = Sample.empty_tables /\
    In (EErr ([10; 0x274C] ++ Js.lit " create-tenant failed: If you provide GHL credentials, you must provide BOTH API key and Location ID."))
       (trace w').
Proof.
  destruct (C2_partial_credentials Sample.one_sided
              (Js.lit "Acme") [] (Js.lit "X") [] [] [] [] [] [] [] [] [] []
              eq_refl eq_refl ltac:(discriminate))
    as (e & m & w1 & w' & _ & Hmain & _ & Hvis & Htr & Hem).
  exists w'. split; [exact Hmain|]. split; [exact Hvis|].
  injection Hem as _ ->. rewrite Htr.
  apply in_or_app. right. right. left. reflexivity.
Defined.

(** C2 as stated fails: with the third-party key given, the location left
    blank and the insert into [tenants] rejected, the error of the run is
    the rejection of the query, not a validation error. *)
Lemma C2_counterexample :
  stdin Sample.one_sided_down =
    [[Js.lit "Acme"]; [[]]; [Js.lit "X"]; [[]]; [[]]; [[]]] /\
  Js.truthy (Js.trim (Js.lit "X")) = true /\
  Js.truthy (Js.trim []) = false /\
  fst (main_try (ready Sample.one_sided_down)) =
    Throw (DbError (Js.lit "connection terminated")) /\
  In (EErr ([10; 0x274C] ++ Js.lit " create-tenant failed: connection terminated"))
     (trace (snd (main Sample.one_sided_down))) /\
  ~ (exists e w1,
       main_try (ready Sample.one_sided_down) = (Throw e, w1) /\
       is_validation e = true).
Proof.
  assert (H : fst (main_try (ready Sample.one_sided_down)) =
              Throw (DbError (Js.lit "connection terminated")))
    by (vm_compute; reflexivity).
  split; [reflexivity|]. split; [reflexivity|]. split; [reflexivity|].
  split; [exact H|]. split.
  - vm_compute. tauto.
  - intros (e & w1 & Ht & Hv). rewrite Ht in H. cbn in H.
    injection H as ->. discriminate Hv.
Qed.

(** C3 at a failing input.  A blank tenant name: the handler reports and
    calls [process.exit(1)], and the [finally] block never runs: the trace
    ends with the exit, [pool.end()] is not in it, and the pool is still
    open. *)
Lemma C3_pool_left_open :
  fst (main Sample.anonymous) = Exit 1%Z /\
  trace (snd (main Sample.anonymous)) =
    [ENewPool (Js.lit "postgres://localhost/app") 1;
     EPrompt (Js.lit "Tenant name (company): ");
     EQuery Rollback true;
     EErr (failure_line name_required);
     EExit 1] /\
  ~ In EPoolEnd (trace (snd (main Sample.anonymous))) /\
  pool (snd (main Sample.anonymous)) =
    PoolOpen (Js.lit "postgres://localhost/app") None.
Proof.
  assert (T : trace (snd (main Sample.anonymous)) =
              [ENewPool (Js.lit "postgres://localhost/app") 1;
               EPrompt (Js.lit "Tenant name (company): ");
               EQuery Rollback true;
               EErr (failure_line name_required);
               EExit 1])
    by (vm_compute; reflexivity).
  split; [vm_compute; reflexivity|]. split; [exact T|]. split.
  - rewrite T. simpl. intuition discriminate.
  - vm_compute. reflexivity.
Qed.

(** The pool is ended exactly by the runs that return: a run that ends
    with [process.exit] leaves it as the constructor made it. *)
Lemma pool_ended_iff_returned (w : World) :
  missing (env_DATABASE_URL w) = false ->
  match fst (main w) with
  | Value _ => pool_closed (snd (main w)) = true
  | Exit _ => pool_closed (snd (main w)) = false
  | Throw _ => False
  | Pending | Drained => pool (snd (main w)) = pool (ready w)
  end.
Proof.
  intros Hm. pose proof (main_spec w) as S.
  destruct (main w) as [[[]|e|c| |] w']; cbn [fst snd].
  - destruct S as (_ & _ & Hp & _). unfold pool_closed. rewrite Hp. reflexivity.
  - exact S.
  - destruct S as [(_ & _ & Hp)|(_ & _ & Hm' & _)]; [exact Hp | congruence].
  - apply S.
  - apply S.
Qed.

(** C8.  Given six answers, each the first line its question gets to read,
    the collector asks its six questions in the order of the source and
    takes the trimmed answers, in that order, as tenant name, label,
    third-party key, location id, base URL and version; whatever reaches the
    input together with an answer is read by the interface of that question
    and is lost.  A blank name throws the validation error after the first
    question alone; a blank label, base URL or version is replaced by its
    fixed default; a blank third-party key or location id stays the empty
    string, and when both are empty the transaction leaves [tenant_secrets]
    alone.  Answers that all reach the input at once are not read in order:
    the first question takes the first line, and the second finds nothing. *)
Theorem C8_prompt_collector (w : World) :
  (forall (r1 r2 r3 r4 r5 r6 : jsstring) (d1 d2 d3 d4 d5 d6 : list jsstring)
          (rest : list (list jsstring)),
     stdin w = (r1 :: d1) :: (r2 :: d2) :: (r3 :: d3) :: (r4 :: d4) :: (r5 :: d5)
                 :: (r6 :: d6) :: rest ->
     (Js.trim r1 = [] ->
      exists w1,
        collect w = (Throw (Error (Js.lit "Tenant name is required.")), w1) /\
        trace w1 = trace w ++ [EPrompt (Js.lit "Tenant name (company): ")] /\
        stdin w1 = (r2 :: d2) :: (r3 :: d3) :: (r4 :: d4) :: (r5 :: d5)
                     :: (r6 :: d6) :: rest)
     /\
     (Js.trim r1 <> [] ->
      exists a w1,
        collect w = (Value a, w1) /\
        trace w1 =
          trace w ++
            [EPrompt (Js.lit "Tenant name (company): ");
             EPrompt (Js.lit "API key label [primary]: ");
             EPrompt (Js.lit "GHL API key (press Enter to skip for now): ");
             EPrompt (Js.lit "GHL Location ID (press Enter to skip for now): ");
             EPrompt (Js.lit "GHL Base URL [https://services.leadconnectorhq.com]: ");
             EPrompt (Js.lit "GHL Version [2021-07-28]: ")] /\
        stdin w1 = rest /\
        name a = Js.trim r1 /\
        label a = match Js.trim r2 with
                  | [] => Js.lit "primary"
                  | _ :: _ => Js.trim r2
                  end /\
        ghlApiKey a = Js.trim r3 /\
        ghlLocationId a = Js.trim r4 /\
        ghlBaseUrl a = match Js.trim r5 with
                       | [] => Js.lit "https://services.leadconnectorhq.com"
                       | _ :: _ => Js.trim r5
                       end /\
        ghlVersion a = match Js.trim r6 with
                       | [] => Js.lit "2021-07-28"
                       | _ :: _ => Js.trim r6
                       end /\
        (Js.trim r3 = [] -> Js.trim r4 = [] ->
         forall (h url : jsstring) (w2 : World),
           pool w2 = PoolOpen url None ->
           (forall n, faults w2 n = None) ->
           exists w3,
             store a h w2 = (Value (next_id w2), w3) /\
             tenant_secrets (committed (database w3)) =
               tenant_secrets (committed (database w2)))))
  /\
  (forall (r1 : jsstring) (others : list jsstring),
     stdin w = [r1 :: others] ->
     Js.trim r1 <> [] ->
     exists w1,
       collect w = (if stdin_closed w then Drained else Pending, w1) /\
       trace w1 =
         trace w ++
           [EPrompt (Js.lit "Tenant name (company): ");
            EPrompt (Js.lit "API key label [primary]: ")] /\
       stdin w1 = []).
Proof.
  split.
  - intros r1 r2 r3 r4 r5 r6 d1 d2 d3 d4 d5 d6 rest Hin. split.
    + intros Hb. eexists. split.
      * apply (collect_nameless w r1 d1 _ Hin). rewrite Hb. reflexivity.
      * split; reflexivity.
    + intros Hb.
      assert (Hn : Js.truthy (Js.trim r1) = true)
        by (destruct (Js.trim r1); [contradiction | reflexivity]).
      exists (answers r1 r2 r3 r4 r5 r6), (asked_all questions rest w).
      split; [apply (collect_six _ _ _ _ _ _ _ d1 d2 d3 d4 d5 d6); assumption|].
      split; [apply asked_all_trace|].
      split; [reflexivity|]. split; [reflexivity|].
      split; [cbn; unfold Js.or_else; destruct (Js.trim r2); reflexivity|].
      split; [reflexivity|]. split; [reflexivity|].
      split; [cbn; unfold Js.or_else; destruct (Js.trim r5); reflexivity|].
      split; [cbn; unfold Js.or_else; destruct (Js.trim r6); reflexivity|].
      intros H3 H4 h url w2 Hp Hf.
      assert (Hv : Js.truthy (ghlApiKey (answers r1 r2 r3 r4 r5 r6)) =
                   Js.truthy (ghlLocationId (answers r1 r2 r3 r4 r5 r6)))
        by (cbn; rewrite H3, H4; reflexivity).
      destruct (store_served _ h w2 url Hp Hf Hv) as (w3 & Hs & Hc & _).
      exists w3. split; [exact Hs|].
      rewrite Hc, stored_secrets. cbn. rewrite H3. reflexivity.
  - intros r1 others Hin Hb.
    assert (Hn : Js.truthy (Js.trim r1) = true)
      by (destruct (Js.trim r1); [contradiction | reflexivity]).
    unfold collect, ask_or.
    rewrite bind_ask, Hin. cbn [read_line]. rewrite Hn. cbn [negb].
    rewrite bind_ret, bind_assoc, bind_ask. cbn [stdin set_stdin emit read_line].
    eexists. split; [reflexivity|].
    cbn. rewrite <- app_assoc. split; reflexivity.
Qed.

Lemma C8_prompt_collector_witness :
  (exists a w1,
     collect Sample.plain = (Value a, w1) /\
     name a = Js.lit "Acme" /\
     label a = Js.lit "ops" /\
     ghlApiKey a = [] /\
     ghlLocationId a = [] /\
     ghlBaseUrl a = Js.lit "https://services.leadconnectorhq.com" /\
     ghlVersion a = Js.lit "2021-07-28") /\
  (exists w1,
     collect (Sample.piped Sample.bare) = (Drained, w1) /\
     trace w1 =
       [EPrompt (Js.lit "Tenant name (company): ");
        EPrompt (Js.lit "API key label [primary]: ")]).
Proof.
  split.
  - destruct (proj2 (proj1 (C8_prompt_collector Sample.plain)
                       (Js.lit "Acme") (Js.lit "ops") [] [32] [] []
                       [] [] [] [] [] [] [] eq_refl)
                ltac:(discriminate))
      as (a & w1 & Hc & _ & _ & Hn & Hl & Hk & Hloc & Hu & Hver & _).
    exists a, w1. split; [exact Hc|].
    rewrite Hn, Hl, Hk, Hloc, Hu, Hver. repeat split; reflexivity.
  - destruct (proj2 (C8_prompt_collector (Sample.piped Sample.bare))
                (Js.lit "Acme") [Js.lit "ops"; []; [32]; []; []] eq_refl
                ltac:(discriminate))
      as (w1 & Hc & Htr & _).
    exists w1. split; [exact Hc | exact Htr].
Defined.

(** ** The shared pool *)

Lemma calls_memoized (envs : list Db.Env) (s : Db.State) (r : nat) :
  Db.pool_var s = Some r ->
  Db.calls envs s = (repeat r (length envs), s).
Proof.
  intros H. induction envs as [|env envs IH]; cbn; [reflexivity|].
  unfold Db.db. rewrite H, IH. reflexivity.
Qed.

(** C9. [db()] constructs the pool on the first call and never again: from
    a state where the module variable is null, any number of calls, under
    whatever environment each one finds, return one and the same reference,
    and after them exactly one more pool object exists, built from the
    environment of the first call.  A call in any state leaves nothing for
    the next call to construct. *)
Theorem C9_db_memoized (envs : list Db.Env) (s : Db.State) :
  (Db.pool_var s = None ->
   fst (Db.calls envs s) = repeat (length (Db.constructed s)) (length envs) /\
   Db.constructed (snd (Db.calls envs s)) =
     match envs with
     | [] => Db.constructed s
     | env :: _ => Db.constructed s ++ [Db.config env]
     end)
  /\
  (forall env env' : Db.Env,
     Db.db env' (snd (Db.db env s)) = (fst (Db.db env s), snd (Db.db env s)))
  /\
  (length (Db.constructed (snd (Db.calls envs Db.initial))) <= 1)%nat.
Proof.
  assert (First : forall s0, Db.pool_var s0 = None ->
            fst (Db.calls envs s0) = repeat (length (Db.constructed s0)) (length envs) /\
            Db.constructed (snd (Db.calls envs s0)) =
              match envs with
              | [] => Db.constructed s0
              | env :: _ => Db.constructed s0 ++ [Db.config env]
              end).
  { intros s0 H. destruct envs as [|env envs]; cbn; [split; reflexivity|].
    unfold Db.db. rewrite H.
    rewrite (calls_memoized envs
               {| Db.pool_var := Some (length (Db.constructed s0));
                  Db.constructed := Db.constructed s0 ++ [Db.config env] |}
               (length (Db.constructed s0)) eq_refl).
    cbn. split; reflexivity. }
  split; [apply First|]. split.
  - intros env env'. unfold Db.db.
    destruct (Db.pool_var s) as [r|] eqn:H; cbn; [rewrite H|]; reflexivity.
  - destruct (First Db.initial eq_refl) as (_ & ->).
    destruct envs; cbn; lia.
Qed.

Lemma C9_db_memoized_witness :
  fst (Db.calls [ {| Db.DATABASE_URL := Some (Js.lit "postgres://a");
                     Db.NODE_ENV := Some (Js.lit "production") |};
                  {| Db.DATABASE_URL := Some (Js.lit "postgres://b");
                     Db.NODE_ENV := None |};
                  {| Db.DATABASE_URL := None; Db.NODE_ENV := None |} ]
         Db.initial) = [0; 0; 0]%nat /\
  Db.constructed
    (snd (Db.calls [ {| Db.DATABASE_URL := Some (Js.lit "postgres://a");
                        Db.NODE_ENV := Some (Js.lit "production") |};
                     {| Db.DATABASE_URL := Some (Js.lit "postgres://b");
                        Db.NODE_ENV := None |};
                     {| Db.DATABASE_URL := None; Db.NODE_ENV := None |} ]
            Db.initial)) =
    [ {| Db.connectionString := Some (Js.lit "postgres://a");
         Db.ssl_rejectUnauthorized := Some false |} ].
Proof.
  exact (proj1 (C9_db_memoized _ Db.initial) eq_refl).
Defined.

(** ** White space on the terminal *)

Lemma commutes_ret {A} (a : A) : commutes (ret a).
Proof. intros w. reflexivity. Qed.

Lemma commutes_throw {A} (e : Err) : commutes (@throw A e).
Proof. intros w. reflexivity. Qed.

Lemma commutes_exit {A} (c : Z) : commutes (@process_exit A c).
Proof. intros w. reflexivity. Qed.

Lemma commutes_log (l : jsstring) : commutes (console_log l).
Proof. intros w. reflexivity. Qed.

Lemma commutes_error (args : list jsstring) : commutes (console_error args).
Proof. intros w. reflexivity. Qed.

Lemma commutes_getenv : commutes getenv_DATABASE_URL.
Proof. intros w. reflexivity. Qed.

Lemma commutes_new_pool (url : jsstring) (max : N) : commutes (new_pool url max).
Proof. intros w. reflexivity. Qed.

Lemma commutes_random (n : nat) : commutes (randomBytes n).
Proof. intros w. reflexivity. Qed.

Lemma commutes_end : commutes pool_end.
Proof.
  intros w. unfold pool_end. change (pool (calm w)) with (pool w).
  destruct (pool w); reflexivity.
Qed.

Lemma commutes_query (s : Stmt) : commutes (pool_query s).
Proof.
  intros w. unfold pool_query.
  change (pool (calm w)) with (pool w).
  change (faults (calm w) (asked (calm w))) with (faults w (asked w)).
  destruct (pool w) as [|url txn|]; [reflexivity| |reflexivity].
  destruct (faults w (asked w)); [reflexivity|].
  change (exec (now (calm w)) s (database (calm w)) txn)
    with (exec (now w) s (database w) txn).
  destruct (exec (now w) s (database w) txn) as [rows [db txn']]. reflexivity.
Qed.

Lemma read_line_unblank (input : list (list jsstring)) :
  read_line (List.map (List.map unblank) input) =
    match read_line input with
    | Some (r, rest) => Some (unblank r, List.map (List.map unblank) rest)
    | None => None
    end.
Proof.
  induction input as [|[|line others] input IH]; cbn; [reflexivity | exact IH | reflexivity].
Qed.

Lemma commutes_ask (q : jsstring) : commutes (ask q).
Proof.
  intros w. unfold ask. cbn. rewrite read_line_unblank.
  destruct (read_line (stdin w)) as [[r rest]|]; cbn.
  - rewrite trim_unblank. reflexivity.
  - destruct (stdin_closed w); reflexivity.
Qed.

Lemma commutes_bind {A B} (m : M A) (k : A -> M B) :
  commutes m -> (forall a, commutes (k a)) -> commutes (bind m k).
Proof.
  intros Hm Hk w. unfold bind. rewrite (Hm w).
  destruct (m w) as [[a|e|c| |] w1]; cbn; [apply Hk | reflexivity..].
Qed.

Lemma commutes_try_catch {A} (body : M A) (handler : Err -> M A) :
  commutes body -> (forall e, commutes (handler e)) ->
  commutes (try_catch body handler).
Proof.
  intros Hb Hh w. unfold try_catch. rewrite (Hb w).
  destruct (body w) as [[a|e|c| |] w1]; cbn; [reflexivity | apply Hh | reflexivity..].
Qed.

Lemma commutes_try_finally {A} (body : M A) (fin : M unit) :
  commutes body -> commutes fin -> commutes (try_finally body fin).
Proof.
  intros Hb Hf w. unfold try_finally. rewrite (Hb w).
  destruct (body w) as [[a|e|c| |] w1]; cbn; try reflexivity.
  - rewrite (Hf w1). destruct (fin w1) as [[?|?|?| |] w2]; reflexivity.
  - rewrite (Hf w1). destruct (fin w1) as [[?|?|?| |] w2]; reflexivity.
Qed.

(** The rules above, applied along the structure of a computation. *)
Ltac commute :=
  repeat first
    [ apply commutes_bind; [|intros ?]
    | apply commutes_try_finally
    | apply commutes_try_catch; [|intros ?]
    | apply commutes_ret
    | apply commutes_throw
    | apply commutes_exit
    | apply commutes_log
    | apply commutes_error
    | apply commutes_getenv
    | apply commutes_new_pool
    | apply commutes_random
    | apply commutes_end
    | apply commutes_query
    | apply commutes_ask
    | progress cbv zeta
    | match goal with
      | |- commutes (if ?b then _ else _) => destruct b
      | |- commutes (match ?x with _ => _ end) => destruct x
      end ].

Lemma commutes_collect : commutes collect.
Proof. unfold collect, ask_or. commute. Qed.

Lemma commutes_store (a : Answers) (h : jsstring) : commutes (store a h).
Proof. unfold store, first_id. commute. Qed.

Lemma commutes_report (a : Answers) (tid key : jsstring) : commutes (report a tid key).
Proof. unfold report. commute. Qed.

Lemma commutes_main_try : commutes main_try.
Proof.
  unfold main_try.
  apply commutes_bind; [apply commutes_collect | intros a].
  apply commutes_bind; [unfold genApiKey; commute | intros rawKey].
  cbv zeta.
  apply commutes_bind; [apply commutes_store | intros tid].
  apply commutes_report.
Qed.

Lemma commutes_main_catch (e : Err) : commutes (main_catch e).
Proof. unfold main_catch. commute. Qed.

Lemma commutes_main : commutes main.
Proof.
  unfold main, try_catch_finally.
  apply commutes_bind; [apply commutes_getenv | intros v].
  apply commutes_bind; [commute | intros _].
  apply commutes_bind; [apply commutes_new_pool | intros _].
  apply commutes_try_finally; [|apply commutes_end].
  apply commutes_try_catch; [apply commutes_main_try | apply commutes_main_catch].
Qed.

(** C10.  Every answer is the submitted line without the white space at its
    two ends, and it is the trimmed answer that the blank checks and the
    defaults look at.  So a line of white space only trims to the empty
    string, [ask] resolves with the same value as for an empty line, and so
    does the whole script: with every white-space-only line replaced by an
    empty one, [main] ends the same way, in the same world up to that
    replacement in the lines left unread.  In particular a white-space-only
    tenant name is rejected with the validation error, and a white-space-only
    label, base URL or version receives its default. *)
Theorem C10_blank_is_empty :
  (forall (q r : jsstring) (d : list jsstring) (rest : list (list jsstring))
          (w : World),
     stdin w = (r :: d) :: rest ->
     exists ans, fst (ask q w) = Value ans /\ trimmed_of r ans) /\
  (forall (w : World) (r1 r2 r3 r4 r5 r6 : jsstring)
          (d1 d2 d3 d4 d5 d6 : list jsstring) (rest : list (list jsstring)),
     stdin w = (r1 :: d1) :: (r2 :: d2) :: (r3 :: d3) :: (r4 :: d4) :: (r5 :: d5)
                 :: (r6 :: d6) :: rest ->
     exists t1 t2 t3 t4 t5 t6,
       trimmed_of r1 t1 /\ trimmed_of r2 t2 /\ trimmed_of r3 t3 /\
       trimmed_of r4 t4 /\ trimmed_of r5 t5 /\ trimmed_of r6 t6 /\
       fst (collect w) =
         match t1 with
         | [] => Throw (Error (Js.lit "Tenant name is required."))
         | _ :: _ =>
             Value {| name := t1;
                      label := match t2 with
                               | [] => Js.lit "primary"
                               | _ :: _ => t2
                               end;
                      ghlApiKey := t3;
                      ghlLocationId := t4;
                      ghlBaseUrl :=
                        match t5 with
                        | [] => Js.lit "https://services.leadconnectorhq.com"
                        | _ :: _ => t5
                        end;
                      ghlVersion := match t6 with
                                    | [] => Js.lit "2021-07-28"
                                    | _ :: _ => t6
                                    end |}
         end) /\
  (forall s : jsstring, Js.blank s = true -> Js.trim s = Js.trim []) /\
  (forall (q s : jsstring) (d : list jsstring) (rest : list (list jsstring))
          (w : World),
     Js.blank s = true ->
     ask q (set_stdin ((s :: d) :: rest) w) = ask q (set_stdin (([] :: d) :: rest) w)) /\
  (forall w : World, main (calm w) = (fst (main w), calm (snd (main w)))) /\
  (forall (w : World) (r1 : jsstring) (d1 : list jsstring)
          (rest : list (list jsstring)),
     stdin w = (r1 :: d1) :: rest ->
     Js.blank r1 = true ->
     fst (collect w) = Throw (Error (Js.lit "Tenant name is required."))) /\
  (forall (w : World) (r1 r2 r3 r4 r5 r6 : jsstring)
          (d1 d2 d3 d4 d5 d6 : list jsstring) (rest : list (list jsstring)),
     stdin w = (r1 :: d1) :: (r2 :: d2) :: (r3 :: d3) :: (r4 :: d4) :: (r5 :: d5)
                 :: (r6 :: d6) :: rest ->
     Js.truthy (Js.trim r1) = true ->
     exists a w1,
       collect w = (Value a, w1) /\
       (Js.blank r2 = true -> label a = Js.lit "primary") /\
       (Js.blank r5 = true ->
        ghlBaseUrl a = Js.lit "https://services.leadconnectorhq.com") /\
       (Js.blank r6 = true -> ghlVersion a = Js.lit "2021-07-28")).
Proof.
  split.
  { intros q r d rest w Hin. exists (Js.trim r).
    split; [rewrite (ask_cons q r d rest w Hin); reflexivity | apply trim_split]. }
  split.
  { intros w r1 r2 r3 r4 r5 r6 d1 d2 d3 d4 d5 d6 rest Hin.
    exists (Js.trim r1), (Js.trim r2), (Js.trim r3), (Js.trim r4), (Js.trim r5),
      (Js.trim r6).
    repeat (split; [apply trim_split|]).
    destruct (Js.truthy (Js.trim r1)) eqn:Hn.
    - rewrite (collect_six w r1 r2 r3 r4 r5 r6 d1 d2 d3 d4 d5 d6 rest Hin Hn).
      unfold Js.or_else, default_label, default_base_url, default_version. cbn [fst].
      destruct (Js.trim r1); [discriminate Hn|].
      destruct (Js.trim r2), (Js.trim r5), (Js.trim r6); reflexivity.
    - rewrite (collect_nameless w r1 d1 _ Hin Hn).
      destruct (Js.trim r1); [reflexivity | discriminate Hn]. }
  split; [exact trim_blank|]. split.
  { intros q s d rest w Hb. unfold ask. cbn. rewrite (trim_blank s Hb). reflexivity. }
  split; [exact commutes_main|]. split.
  { intros w r1 d1 rest Hin Hb.
    rewrite (collect_nameless w r1 d1 rest Hin); [reflexivity|].
    rewrite (trim_blank r1 Hb). reflexivity. }
  intros w r1 r2 r3 r4 r5 r6 d1 d2 d3 d4 d5 d6 rest Hin Hn.
  exists (answers r1 r2 r3 r4 r5 r6), (asked_all questions rest w).
  split; [apply (collect_six _ _ _ _ _ _ _ d1 d2 d3 d4 d5 d6); assumption|].
  repeat split; intros Hb; cbn; rewrite (trim_blank _ Hb); reflexivity.
Qed.

Lemma C10_blank_is_empty_witness :
  (exists ans,
     fst (ask (Js.lit "Tenant name (company): ") Sample.returning) = Value ans /\
     trimmed_of (Js.lit " Acme ") ans) /\
  Js.trim [32; 9] = [] /\
  fst (collect Sample.anonymous) = Throw name_required /\
  (exists a w1,
     collect (set_stdin (Sample.typed [Js.lit "Acme"; [32]; []; []; [9; 32]; [0xA0]])
                Sample.plain) =
       (Value a, w1) /\
     label a = Js.lit "primary" /\
     ghlBaseUrl a = Js.lit "https://services.leadconnectorhq.com" /\
     ghlVersion a = Js.lit "2021-07-28").
Proof.
  split.
  { exact (proj1 C10_blank_is_empty (Js.lit "Tenant name (company): ") (Js.lit " Acme ")
             [] (List.tl (Sample.typed Sample.full)) Sample.returning eq_refl). }
  split; [exact (proj1 (proj2 (proj2 C10_blank_is_empty)) [32; 9] eq_refl)|].
  split.
  - exact (proj1 (proj2 (proj2 (proj2 (proj2 (proj2 C10_blank_is_empty)))))
             Sample.anonymous [32; 9] [] (List.tl (Sample.typed Sample.nameless))
             eq_refl eq_refl).
  - destruct (proj2 (proj2 (proj2 (proj2 (proj2 (proj2 C10_blank_is_empty)))))
                (set_stdin (Sample.typed [Js.lit "Acme"; [32]; []; []; [9; 32]; [0xA0]])
                   Sample.plain)
                (Js.lit "Acme") [32] [] [] [9; 32] [0xA0] [] [] [] [] [] [] []
                eq_refl eq_refl)
      as (a & w1 & Hc & Hl & Hu & Hv).
    exists a, w1. split; [exact Hc|].
    split; [exact (Hl eq_refl)|]. split; [exact (Hu eq_refl) | exact (Hv eq_refl)].
Defined.

(** * More of the script *)

(** ** What a run adds to the trace *)

Lemma extends_refl (P : Event -> bool) (w w1 : World) :
  trace w1 = trace w -> extends P w w1.
Proof. intros H. exists []. rewrite app_nil_r. split; [exact H | reflexivity]. Qed.

Lemma extends_trans (P : Event -> bool) (w w1 w2 : World) :
  extends P w w1 -> extends P w1 w2 -> extends P w w2.
Proof.
  intros (e1 & H1 & P1) (e2 & H2 & P2). exists (e1 ++ e2).
  rewrite H2, H1, <- app_assoc, forallb_app, P1, P2. split; reflexivity.
Qed.

Lemma extends_weaken (P Q : Event -> bool) (w w1 : World) :
  (forall e, P e = true -> Q e = true) -> extends P w w1 -> extends Q w w1.
Proof.
  intros HPQ (evs & H & HP). exists evs. split; [exact H|].
  apply forallb_forall. intros e He.
  apply HPQ. exact (proj1 (forallb_forall P evs) HP e He).
Qed.

Lemma sent_forallb (P : Event -> bool) (faults : nat -> option jsstring)
    (stmts : list Stmt) (n : nat) :
  (forall s b, In s stmts -> P (EQuery s b) = true) ->
  forallb P (sent faults n stmts) = true.
Proof.
  revert n. induction stmts as [|s rest IH]; intros n H; cbn; [reflexivity|].
  destruct (faults n); cbn.
  - rewrite (H s false (or_introl eq_refl)). reflexivity.
  - rewrite (H s true (or_introl eq_refl)). apply IH.
    intros s' b Hin. apply H. right. exact Hin.
Qed.

(** Every statement of the plan is a query with paired third-party values. *)
Lemma plan_paired (a : Answers) (h tid : jsstring) (s : Stmt) (b : bool) :
  In s (plan a h tid) ->
  paired (EQuery s b) = true /\ is_log (EQuery s b) = false.
Proof.
  unfold plan.
  destruct (Js.truthy (ghlApiKey a)) eqn:K, (Js.truthy (ghlLocationId a)) eqn:L;
    cbn; intros H;
    repeat (destruct H as [<-|H]; [cbn; rewrite ?K, ?L; split; reflexivity|]);
    contradiction.
Qed.

Lemma emits_ret {A} (P : Event -> bool) (a : A) : emits P (ret a).
Proof. intros w. apply extends_refl. reflexivity. Qed.

Lemma emits_throw {A} (P : Event -> bool) (e : Err) : emits P (@throw A e).
Proof. intros w. apply extends_refl. reflexivity. Qed.

Lemma emits_ask (q : jsstring) : emits is_prompt (ask q).
Proof.
  intros w. exists [EPrompt q]. split; [|reflexivity].
  unfold ask. cbn. destruct (read_line (stdin w)) as [[r rest]|]; reflexivity.
Qed.

Lemma emits_bind {A B} (P : Event -> bool) (m : M A) (k : A -> M B) :
  emits P m -> (forall a, emits P (k a)) -> emits P (bind m k).
Proof.
  intros Hm Hk w. unfold bind. specialize (Hm w).
  destruct (m w) as [[a|e|c| |] w1]; cbn [snd] in *; try exact Hm.
  apply (extends_trans _ w w1); [exact Hm | apply Hk].
Qed.

Lemma collect_events (w : World) : extends is_prompt w (snd (collect w)).
Proof.
  revert w. change (emits is_prompt collect). unfold collect, ask_or.
  repeat first
    [ apply emits_bind; [|intros ?]
    | apply emits_ret
    | apply emits_throw
    | apply emits_ask
    | match goal with |- emits _ (if ?b then _ else _) => destruct b end ].
Qed.

Lemma allowed_quiet {A} (o : Outcome A) (e : Event) :
  paired e = true -> is_log e = false -> allowed o e = true.
Proof. unfold allowed. intros -> ->. destruct o; reflexivity. Qed.

(** X12. The whole trace of a run with a tenant name and six answers, each
    the first line its question gets to read, for every pattern of rejected
    queries: the pool, the six questions, the statements of the transaction
    up to the first rejection, and then either the report and the end of the
    pool, or a rollback, the error line and exit code 1.  The run returns
    exactly when no statement was rejected and the third-party values are
    both given or both left out. *)
Theorem run_trace (w : World) (r1 r2 r3 r4 r5 r6 : jsstring)
    (d1 d2 d3 d4 d5 d6 : list jsstring) (rest : list (list jsstring)) :
  missing (env_DATABASE_URL w) = false ->
  stdin w = (r1 :: d1) :: (r2 :: d2) :: (r3 :: d3) :: (r4 :: d4) :: (r5 :: d5)
              :: (r6 :: d6) :: rest ->
  Js.truthy (Js.trim r1) = true ->
  let stmts := plan (answers r1 r2 r3 r4 r5 r6) (sha256Hex (key_of w)) (next_id w) in
  let queries := sent (faults w) (asked w) stmts in
  let rollback :=
    EQuery Rollback (bool_decide (faults w (length queries + asked w)%nat = None)) in
  exists ending,
    trace (snd (main w)) =
      trace w ++ [ENewPool (default [] (env_DATABASE_URL w)) 1] ++
        List.map EPrompt questions ++ queries ++ ending /\
    match first_fault (faults w) (asked w) (length stmts) with
    | Some msg =>
        fst (main w) = Exit 1%Z /\
        ending = [rollback; EErr (failure_line (DbError msg)); EExit 1]
    | None =>
        if xorb (Js.truthy (Js.trim r3)) (Js.truthy (Js.trim r4))
        then fst (main w) = Exit 1%Z /\
             ending = [rollback; EErr (failure_line both_required); EExit 1]
        else fst (main w) = Value tt /\
             exists lines,
               ending = List.map ELog lines ++ [EPoolEnd] /\
               length lines = (if Js.truthy (Js.trim r3) then 12 else 13)%nat /\
               nth 6 lines [] = key_of w
    end.
Proof.
  intros Hm Hin Hn stmts queries rollback.
  destruct (run_six w r1 r2 r3 r4 r5 r6 d1 d2 d3 d4 d5 d6 rest Hm Hin Hn)
    as (ending & Htr & R).
  cbv zeta in Htr, R. fold stmts in Htr, R. fold queries in Htr, R. fold rollback in R.
  exists ending. split; [exact Htr|].
  destruct (first_fault (faults w) (asked w) (length stmts)) as [msg|].
  - destruct R as (H1 & H2 & _). split; assumption.
  - destruct (xorb (Js.truthy (Js.trim r3)) (Js.truthy (Js.trim r4))).
    + destruct R as (H1 & H2 & _). split; assumption.
    + destruct R as (H1 & H2 & _). split; assumption.
Qed.

Lemma prompt_allowed {A} (o : Outcome A) (e : Event) :
  is_prompt e = true -> allowed o e = true.
Proof. destruct e; try discriminate. intros _. apply allowed_quiet; reflexivity. Qed.

Lemma main_try_events (w : World) (url : jsstring) :
  pool w = PoolOpen url None ->
  extends (allowed (fst (main_try w))) w (snd (main_try w)).
Proof.
  intros Hp. unfold main_try, bind.
  pose proof (collect_events w) as E. destruct (collect_spec w) as [B _].
  destruct (collect w) as [[a|e|c| |] w1]; cbn [fst snd] in *;
    try (apply (extends_weaken is_prompt); [apply prompt_allowed | exact E]).
  rewrite genApiKey_eq.
  apply backend_inv in B. destruct B as (_ & _ & _ & _ & _ & _ & P).
  set (w2 := set_drawn (drawn w1 + 24)%nat w1).
  assert (P2 : pool w2 = PoolOpen url None) by (unfold w2; cbn; congruence).
  pose proof (store_protocol a (sha256Hex (key_of w1)) w2 url P2) as S.
  destruct (store a (sha256Hex (key_of w1)) w2) as [o w3].
  destruct S as (Htr & _ & _ & Ho).
  assert (Q : forall A (o' : Outcome A), extends (allowed o') w w3).
  { intros A o'. apply (extends_trans _ w w1).
    - apply (extends_weaken is_prompt); [apply prompt_allowed | exact E].
    - eexists. split; [exact Htr|]. apply sent_forallb.
      intros s b Hin. destruct (plan_paired _ _ _ s b Hin) as (H1 & H2).
      apply allowed_quiet; assumption. }
  destruct o as [tid|e|c| |].
  - destruct (report_lines a tid (key_of w1) w3) as (w4 & lines & Hr & Htr4 & _).
    rewrite Hr. cbn [fst snd].
    apply (extends_trans _ w w3); [apply Q|].
    exists (List.map ELog lines). split; [exact Htr4|].
    clear. induction lines; [reflexivity | exact IHlines].
  - apply Q.
  - apply Q.
  - apply Q.
  - apply Q.
Qed.

(** Every run of [main], by what it adds to the trace. *)
Lemma main_events (w : World) :
  extends (allowed (fst (main w))) w (snd (main w)).
Proof.
  destruct (missing (env_DATABASE_URL w)) eqn:Hm.
  - rewrite (main_missing w Hm). unfold extends. cbn.
    eexists. rewrite <- app_assoc. split; reflexivity.
  - rewrite (main_ready w Hm).
    pose proof (main_try_events (ready w) _ (ready_pool w)) as E.
    pose proof (main_try_spec (ready w) _ (ready_pool w)) as S.
    assert (R : forall A (o : Outcome A), extends (allowed o) w (ready w)).
    { intros A o. exists [ENewPool (default [] (env_DATABASE_URL w)) 1].
      split; [apply ready_trace|]. cbn [forallb].
      rewrite allowed_quiet by reflexivity. reflexivity. }
    destruct (main_try (ready w)) as [[[]|e|c| |] w1] eqn:T; cbn [fst snd] in E.
    + destruct S as (_ & _ & _ & _ & _ & P1 & _).
      rewrite (guarded_value _ _ _ _ _ _ None T P1). cbn [fst snd].
      apply (extends_trans _ w (ready w)); [apply R|].
      apply (extends_trans _ _ w1); [exact E|].
      exists [EPoolEnd]. split; reflexivity.
    + rewrite (guarded_throw _ _ _ T).
      destruct S as (_ & (txn & P1) & _).
      destruct (main_catch_spec e w1) as (w2 & rb & Hc & Htr & Hrb & _).
      rewrite Hc. cbn [fst snd].
      apply (extends_trans _ w (ready w)); [apply R|].
      apply (extends_trans _ _ w1); [exact E|].
      eexists. split; [exact Htr|]. rewrite Hrb, P1. reflexivity.
    + contradiction.
    + unfold try_catch_finally, try_finally, try_catch. rewrite T. cbn [fst snd].
      apply (extends_trans _ w (ready w)); [apply R | exact E].
    + unfold try_catch_finally, try_finally, try_catch. rewrite T. cbn [fst snd].
      apply (extends_trans _ w (ready w)); [apply R | exact E].
Qed.

(** ** Statements about every run *)

(** X1. [DATABASE_URL] set to the empty string is as good as unset: the
    error line, exit code 1, no pool, no prompt, no query. *)
Theorem empty_database_url_is_missing (w : World) :
  env_DATABASE_URL w = Some [] ->
  main w =
    (Exit 1%Z,
     emit (EExit 1)
       (emit (EErr ([0x274C] ++ Js.lit " Missing DATABASE_URL env var")) w)) /\
  pool (snd (main w)) = pool w /\
  asked (snd (main w)) = asked w /\
  stdin (snd (main w)) = stdin w.
Proof.
  intros H.
  assert (Hm : missing (env_DATABASE_URL w) = true) by (rewrite H; reflexivity).
  rewrite (main_missing w Hm). repeat split; reflexivity.
Qed.

(** X2. [main] never rejects: a run returns, is left without an answer on
    the terminal, or calls [process.exit], and then always with code 1.  It returns only
    with the pool ended, and it exits with the pool as the constructor left
    it (or without any pool, when the variable is missing). *)
Theorem main_never_rejects (w : World) :
  (forall e, fst (main w) <> Throw e) /\
  (forall c, fst (main w) = Exit c -> c = 1%Z) /\
  (fst (main w) = Value tt -> pool (snd (main w)) = PoolEnded) /\
  (forall c, fst (main w) = Exit c -> missing (env_DATABASE_URL w) = false ->
             pool_closed (snd (main w)) = false).
Proof.
  pose proof (main_spec w) as S.
  destruct (main w) as [[[]|e|c| |] w']; cbn [fst snd].
  - destruct S as (_ & _ & Hp & _).
    repeat split; try discriminate. intros _. exact Hp.
  - contradiction.
  - split; [discriminate|]. split.
    + intros c' [= <-]. destruct S as [(S & _)|(S & _)]; exact S.
    + split; [discriminate|]. intros c' _ Hm.
      destruct S as [(_ & _ & S)|(_ & _ & Hm' & _)]; [exact S | congruence].
  - repeat split; discriminate.
  - repeat split; discriminate.
Qed.

(** X3. No run ever sends an upsert of third-party values with the key or
    the location id empty, whatever the operator types and whichever
    queries are rejected. *)
Theorem upsert_always_paired (w : World) :
  exists evs,
    trace (snd (main w)) = trace w ++ evs /\
    forall tid k loc url ver served,
      In (EQuery (UpsertTenantSecret tid k loc url ver) served) evs ->
      Js.truthy k = true /\ Js.truthy loc = true.
Proof.
  destruct (main_events w) as (evs & Htr & Hall).
  exists evs. split; [exact Htr|].
  intros tid k loc url ver served Hin.
  pose proof (proj1 (forallb_forall _ evs) Hall _ Hin) as H.
  unfold allowed in H. apply andb_true_iff in H. destruct H as (H & _).
  cbn in H. apply andb_true_iff in H. exact H.
Qed.

(** X4. A run that does not return prints no line of the report: besides
    the prompts and the error line nothing reaches the terminal, and the key
    is never shown. *)
Theorem failed_run_prints_no_report (w : World) :
  fst (main w) <> Value tt ->
  exists evs,
    trace (snd (main w)) = trace w ++ evs /\
    forall line, ~ In (ELog line) evs.
Proof.
  intros Hne. destruct (main_events w) as (evs & Htr & Hall).
  exists evs. split; [exact Htr|].
  intros line Hin.
  pose proof (proj1 (forallb_forall _ evs) Hall _ Hin) as H.
  unfold allowed in H. apply andb_true_iff in H. destruct H as (_ & H).
  destruct (fst (main w)) as [[]|e|c| |]; [congruence|discriminate..].
Qed.

Lemma failed_run_prints_no_report_witness :
  exists evs,
    trace (snd (main Sample.deadlocked)) = trace Sample.deadlocked ++ evs /\
    forall line, ~ In (ELog line) evs.
Proof.
  apply (failed_run_prints_no_report Sample.deadlocked).
  vm_compute. discriminate.
Defined.

Lemma empty_database_url_is_missing_witness :
  fst (main Sample.blank_url) = Exit 1%Z /\ pool (snd (main Sample.blank_url)) = NoPool.
Proof.
  destruct (empty_database_url_is_missing Sample.blank_url eq_refl) as (H & Hp & _).
  split; [rewrite H; reflexivity | exact Hp].
Defined.

(** ** What [ask] resolves with *)

(** X5. [ask] writes the question and resolves with the first line that
    reaches its interface, minus the white space at the two ends of that
    line: the answer neither starts nor ends with white space, and trimming
    it again changes nothing.  The lines that reach the input together with
    the answer are not kept for the next question; what comes later is. *)
Theorem ask_trims (q line : jsstring) (others : list jsstring)
    (rest : list (list jsstring)) (w : World) :
  stdin w = (line :: others) :: rest ->
  exists ans w1 pre post,
    ask q w = (Value ans, w1) /\
    line = pre ++ ans ++ post /\
    Js.blank pre = true /\
    Js.blank post = true /\
    (forall c r, ans = c :: r -> Js.is_space c = false) /\
    (forall c r, rev ans = c :: r -> Js.is_space c = false) /\
    Js.trim ans = ans /\
    stdin w1 = rest /\
    trace w1 = trace w ++ [EPrompt q].
Proof.
  intros Hin.
  destruct (trim_split line) as (pre & post & Hs & Hb & Hb' & Hh & Hl).
  exists (Js.trim line), (set_stdin rest (emit (EPrompt q) w)), pre, post.
  split; [apply (ask_cons q line others rest w Hin)|].
  repeat split; try assumption. apply trim_idempotent.
Qed.

Lemma ask_trims_witness :
  exists w1,
    ask (Js.lit "Tenant name (company): ") (Sample.piped Sample.full) =
      (Value (Js.lit "Acme"), w1) /\
    stdin w1 = [].
Proof.
  destruct (ask_trims (Js.lit "Tenant name (company): ") (Js.lit " Acme ")
              [[]; Js.lit "key-1"; Js.lit "loc-1"; []; []] []
              (Sample.piped Sample.full) eq_refl)
    as (ans & w1 & pre & post & Hask & _ & _ & _ & _ & _ & _ & Hin & _).
  exists w1. split; [|exact Hin]. rewrite Hask.
  assert (E : fst (ask (Js.lit "Tenant name (company): ") (Sample.piped Sample.full)) =
              Value (Js.lit "Acme")) by (vm_compute; reflexivity).
  rewrite Hask in E. cbn in E. rewrite E. reflexivity.
Defined.

(** ** Keys and digests *)

Lemma hex_digit_inj (n m : N) :
  n < 16 -> m < 16 -> Js.hex_digit n = Js.hex_digit m -> n = m.
Proof.
  unfold Js.hex_digit. intros Hn Hm.
  destruct (N.ltb_spec n 10), (N.ltb_spec m 10); lia.
Qed.

Lemma hex_byte_inj (b c : N) :
  b < 256 -> c < 256 -> Js.hex_byte b = Js.hex_byte c -> b = c.
Proof.
  intros Hb Hc. unfold Js.hex_byte. intros [= H1 H2].
  apply hex_digit_inj in H1; [|apply high_nibble..].
  apply hex_digit_inj in H2; [|apply low_nibble..].
  revert H1 H2.
  change 0xFF with (N.ones 8). change 0xF with (N.ones 4).
  rewrite !N.land_ones, !N.shiftr_div_pow2.
  change (2 ^ 8) with 256. change (2 ^ 4) with 16.
  rewrite !N.mod_small by assumption.
  intros H1 H2.
  rewrite (N.div_mod b 16), (N.div_mod c 16) by discriminate.
  rewrite H1, H2. reflexivity.
Qed.

Lemma hex_inj (bs cs : list N) :
  List.Forall (fun b => b < 256) bs ->
  List.Forall (fun b => b < 256) cs ->
  Js.hex bs = Js.hex cs -> bs = cs.
Proof.
  unfold Js.hex. intros Hb. revert cs.
  induction Hb as [|b bs Hb _ IH]; intros cs Hc; destruct Hc as [|c cs Hc Hcs];
    cbn; try discriminate; [reflexivity|].
  intros [= H1 H2 H3].
  assert (b = c) by (apply hex_byte_inj; [assumption..|]; unfold Js.hex_byte; congruence).
  subst c. f_equal. apply IH; assumption.
Qed.

Lemma key_bytes_bounded (w : World) : List.Forall (fun b => b < 256) (key_bytes w).
Proof.
  apply List.Forall_forall. intros b Hb. unfold key_bytes in Hb.
  apply List.in_map_iff in Hb. destruct Hb as (i & <- & _). apply byte_bound.
Qed.

(** X6. The key determines the random bytes it was made of: two runs print
    the same key only when they drew the same 24 bytes. *)
Theorem same_key_same_bytes (w1 w2 : World) :
  key_of w1 = key_of w2 <-> key_bytes w1 = key_bytes w2.
Proof.
  unfold key_of. split.
  - apply hex_inj; apply key_bytes_bounded.
  - intros ->. reflexivity.
Qed.

Lemma utf8_ascii (s : jsstring) :
  forallb (fun c => c <? 0x80) s = true -> Js.utf8 s = s.
Proof.
  induction s as [|c s IH]; cbn; [reflexivity|].
  intros H. apply andb_true_iff in H. destruct H as (Hc & Hs).
  rewrite Hc, (IH Hs). reflexivity.
Qed.

Lemma hex_digit_ascii (c : N) : Js.is_hex_digit c = true -> (c <? 0x80) = true.
Proof.
  unfold Js.is_hex_digit. intros H. apply N.ltb_lt.
  apply orb_true_iff in H. destruct H as [H|H];
    apply andb_true_iff in H; destruct H as (_ & H); apply N.leb_le in H; lia.
Qed.

Lemma key_ascii (w : World) : forallb (fun c => c <? 0x80) (key_of w) = true.
Proof.
  apply forallb_forall. intros c Hc. apply hex_digit_ascii.
  exact (proj1 (forallb_forall _ _) (hex_digits (key_bytes w)) c Hc).
Qed.

(** X7. What is hashed is the key as printed, its 48 characters as 48
    bytes, and the digest stored by a returning run is never the key
    itself. *)
Theorem stored_hash_is_not_the_key (w w' : World) :
  main w = (Value tt, w') ->
  Js.utf8 (key_of w) = key_of w /\
  exists row,
    api_keys (visible w') = api_keys (visible w) ++ [row] /\
    key_hash row = Js.hex (Sha256.digest (key_of w)) /\
    key_hash row <> key_of w.
Proof.
  intros Hmain. pose proof (main_spec w) as S. rewrite Hmain in S.
  destruct S as (_ & (a & _ & _ & _ & Hvis) & _).
  assert (U : Js.utf8 (key_of w) = key_of w) by (apply utf8_ascii, key_ascii).
  split; [exact U|].
  rewrite Hvis, stored_api_keys. eexists.
  split; [reflexivity|]. cbn [key_hash].
  split; [unfold sha256Hex; rewrite U; reflexivity|].
  intros E. pose proof (sha256Hex_length (key_of w)) as L.
  rewrite E in L. unfold key_of in L. rewrite hex_length in L. discriminate L.
Qed.

Lemma stored_hash_is_not_the_key_witness :
  Js.utf8 (key_of Sample.plain) = key_of Sample.plain.
Proof.
  assert (H : main Sample.plain = (Value tt, snd (main Sample.plain)))
    by (vm_compute; reflexivity).
  exact (proj1 (stored_hash_is_not_the_key Sample.plain _ H)).
Defined.

(** ** The answers behind a run *)

Lemma or_else_nonempty (s d : jsstring) :
  Js.truthy d = true -> Js.truthy (Js.or_else s d) = true.
Proof. unfold Js.or_else. destruct (Js.truthy s) eqn:T; [rewrite T|]; trivial. Qed.

(** X8. The rows of a returning run belong together and to its answers:
    the run read six lines; the new tenant row carries the new identifier and
    the first answer, trimmed and not empty; the new key row carries that
    identifier, the digest of the key and the second answer or the default
    label; and [tenant_secrets] changes at most under that same identifier,
    where the row then holds the third and fourth answers, both non-empty,
    and the fifth and sixth or their defaults. *)
Theorem rows_belong_together (w w' : World) :
  main w = (Value tt, w') ->
  exists (r1 r2 r3 r4 r5 r6 : jsstring) (t : TenantRow) (k : ApiKeyRow),
    read_lines 6 (stdin w) = Some [r1; r2; r3; r4; r5; r6] /\
    tenants (visible w') = tenants (visible w) ++ [t] /\
    api_keys (visible w') = api_keys (visible w) ++ [k] /\
    t = {| tenant_id := next_id w; tenant_name := Js.trim r1 |} /\
    k = {| key_tenant_id := next_id w;
           key_hash := sha256Hex (key_of w);
           key_label := match Js.trim r2 with
                        | [] => Js.lit "primary"
                        | _ :: _ => Js.trim r2
                        end |} /\
    key_tenant_id k = tenant_id t /\
    Js.truthy (tenant_name t) = true /\
    Js.trim (tenant_name t) = tenant_name t /\
    Js.truthy (key_label k) = true /\
    (forall tid, tid <> tenant_id t ->
       tenant_secrets (visible w') !! tid = tenant_secrets (visible w) !! tid) /\
    (Js.trim r3 = [] /\ Js.trim r4 = [] /\
     tenant_secrets (visible w') !! tenant_id t =
       tenant_secrets (visible w) !! tenant_id t \/
     exists s,
       tenant_secrets (visible w') !! tenant_id t = Some s /\
       ghl_api_key s = Js.trim r3 /\
       ghl_location_id s = Js.trim r4 /\
       ghl_base_url s =
         match Js.trim r5 with
         | [] => Js.lit "https://services.leadconnectorhq.com"
         | _ :: _ => Js.trim r5
         end /\
       ghl_version s = match Js.trim r6 with
                       | [] => Js.lit "2021-07-28"
                       | _ :: _ => Js.trim r6
                       end /\
       Js.truthy (ghl_api_key s) = true /\
       Js.truthy (ghl_location_id s) = true /\
       Js.truthy (ghl_base_url s) = true /\
       Js.truthy (ghl_version s) = true).
Proof.
  intros Hmain. pose proof (main_spec w) as S. rewrite Hmain in S.
  destruct S as (_ & (a & Ha & Hn & Hv & Hvis) & _).
  destruct (collect_value _ _ Ha) as (r1 & r2 & r3 & r4 & r5 & r6 & Hl & _ & ->).
  exists r1, r2, r3, r4, r5, r6.
  rewrite Hvis, stored_tenants, stored_api_keys, stored_secrets.
  eexists. eexists. split; [exact Hl|]. split; [reflexivity|]. split; [reflexivity|].
  cbn [tenant_id key_tenant_id tenant_name key_label name label answers] in *.
  split; [reflexivity|].
  split; [unfold Js.or_else, default_label; destruct (Js.trim r2); reflexivity|].
  split; [reflexivity|]. split; [exact Hn|].
  split; [apply trim_idempotent|].
  split; [apply or_else_nonempty; reflexivity|].
  cbn [ghlApiKey ghlLocationId ghlBaseUrl ghlVersion answers] in *.
  destruct (Js.truthy (Js.trim r3)) eqn:K.
  - split; [intros tid Hne; apply lookup_insert_ne; congruence|].
    right. eexists. split; [apply lookup_insert_eq|].
    cbn. split; [reflexivity|]. split; [reflexivity|].
    split; [unfold Js.or_else, default_base_url; destruct (Js.trim r5); reflexivity|].
    split; [unfold Js.or_else, default_version; destruct (Js.trim r6); reflexivity|].
    repeat split; try (apply or_else_nonempty; reflexivity); congruence.
  - split; [reflexivity|]. left.
    split; [apply truthy_false; exact K|].
    split; [apply truthy_false; congruence | reflexivity].
Qed.

Lemma rows_belong_together_witness :
  exists t k,
    tenants (visible (snd (main Sample.returning))) =
      tenants (visible Sample.returning) ++ [t] /\
    api_keys (visible (snd (main Sample.returning))) =
      api_keys (visible Sample.returning) ++ [k] /\
    tenant_name t = Js.lit "Acme" /\
    key_tenant_id k = tenant_id t.
Proof.
  assert (H : main Sample.returning = (Value tt, snd (main Sample.returning)))
    by (vm_compute; reflexivity).
  destruct (rows_belong_together Sample.returning _ H)
    as (r1 & r2 & r3 & r4 & r5 & r6 & t & k & Hl & Ht & Hk & Et & _ & Hid & _).
  exists t, k. split; [exact Ht|]. split; [exact Hk|]. split; [|exact Hid].
  vm_compute in Hl. injection Hl as <- _ _ _ _ _. rewrite Et. reflexivity.
Defined.

(** X9. With [DATABASE_URL] set, a run whose questions find fewer than six
    lines, the first of them not blank, never gets to the transaction: it has
    constructed its pool and asked, but it has sent no query, drawn no random
    byte, committed nothing, and its pool is never ended.  On an input that
    stays open it waits for ever; on an input that has ended the process is
    left with nothing to wait for and ends with exit code 0. *)
Theorem hangs_when_lines_run_out (w : World) :
  missing (env_DATABASE_URL w) = false ->
  (forall r i, read_line (stdin w) = Some (r, i) -> Js.truthy (Js.trim r) = true) ->
  read_lines 6 (stdin w) = None ->
  fst (main w) = (if stdin_closed w then Drained else Pending) /\
  exit_code (fst (main w)) = (if stdin_closed w then Some 0%Z else None) /\
  asked (snd (main w)) = asked w /\
  drawn (snd (main w)) = drawn w /\
  visible (snd (main w)) = visible w /\
  pool (snd (main w)) = PoolOpen (default [] (env_DATABASE_URL w)) None /\
  (forall e, In e (trace (snd (main w))) -> In e (trace w) \/ is_prompt e = true \/
             e = ENewPool (default [] (env_DATABASE_URL w)) 1).
Proof.
  intros Hm Hn Hl.
  pose proof (collect_unanswered (ready w) Hn Hl) as C.
  pose proof (collect_events (ready w)) as (evs & Hevs & Hprompt).
  pose proof (main_spec w) as S. rewrite (main_ready w Hm) in S |- *.
  assert (T : main_try (ready w) = (unanswered (ready w), snd (collect (ready w)))).
  { unfold main_try, bind. unfold unanswered in *.
    destruct (collect (ready w)) as [[a|e|c| |] w1]; cbn [fst snd] in *;
      destruct (stdin_closed (ready w)); try discriminate C; reflexivity. }
  assert (R : try_catch_finally main_try main_catch pool_end (ready w) =
              (unanswered (ready w), snd (collect (ready w)))).
  { unfold try_catch_finally, try_finally, try_catch. rewrite T.
    unfold unanswered. destruct (stdin_closed (ready w)); reflexivity. }
  rewrite R in S |- *. cbn [fst snd].
  unfold unanswered in *. change (stdin_closed (ready w)) with (stdin_closed w) in *.
  assert (Tr : forall e, In e (trace (snd (collect (ready w)))) ->
               In e (trace w) \/ is_prompt e = true \/
               e = ENewPool (default [] (env_DATABASE_URL w)) 1).
  { intros e. rewrite Hevs, ready_trace. intros Hin.
    apply in_app_or in Hin. destruct Hin as [Hin|Hin].
    - apply in_app_or in Hin. destruct Hin as [Hin|[<-|[]]]; [left; exact Hin|].
      right. right. reflexivity.
    - right. left. exact (proj1 (forallb_forall _ _) Hprompt e Hin). }
  destruct (stdin_closed w); cbn [exit_code];
    destruct S as (V & P & A & D); repeat split; assumption.
Qed.

Lemma hangs_when_lines_run_out_witness :
  (fst (main Sample.walked_away) = Pending /\
   asked (snd (main Sample.walked_away)) = 0%nat) /\
  (fst (main (Sample.piped Sample.bare)) = Drained /\
   exit_code (fst (main (Sample.piped Sample.bare))) = Some 0%Z /\
   visible (snd (main (Sample.piped Sample.bare))) = Sample.empty_tables).
Proof.
  split.
  - destruct (hangs_when_lines_run_out Sample.walked_away eq_refl
                ltac:(intros r i [= <- _]; reflexivity) eq_refl)
      as (H & _ & A & _).
    split; [exact H | exact A].
  - destruct (hangs_when_lines_run_out (Sample.piped Sample.bare) eq_refl
                ltac:(intros r i [= <- _]; reflexivity) eq_refl)
      as (H & E & _ & _ & V & _).
    split; [exact H|]. split; [exact E | exact V].
Defined.

(** ** The transaction and the report *)

(** X10. The transaction sends its statements in the order of the source,
    begin, insert into tenants, insert into api_keys, the upsert when both
    third-party values are there, commit, each one only after the one before
    was served; the first rejection ends it with that error, and with exactly
    one third-party value it throws the validation error after the insert
    into api_keys, before any commit. *)
Theorem transaction_in_order (a : Answers) (h : jsstring) (w : World) (url : jsstring) :
  pool w = PoolOpen url None ->
  let stmts := plan a h (next_id w) in
  trace (snd (store a h w)) = trace w ++ sent (faults w) (asked w) stmts /\
  asked (snd (store a h w)) =
    (length (sent (faults w) (asked w) stmts) + asked w)%nat /\
  fst (store a h w) =
    match first_fault (faults w) (asked w) (length stmts) with
    | Some msg => Throw (DbError msg)
    | None =>
        if xorb (Js.truthy (ghlApiKey a)) (Js.truthy (ghlLocationId a))
        then Throw (Error (Js.lit "If you provide GHL credentials, you must provide BOTH API key and Location ID."))
        else Value (next_id w)
    end.
Proof.
  intros Hp stmts. pose proof (store_protocol a h w url Hp) as S.
  destruct (store a h w) as [o w1]. destruct S as (Htr & Ha & _ & Ho).
  repeat split; assumption.
Qed.

Lemma transaction_in_order_witness :
  fst (store (answers (Js.lit "Acme") [] (Js.lit "X") [] [] []) (sha256Hex [])
         (ready Sample.one_sided)) = Throw both_required /\
  flat_map (fun e => match e with EQuery s _ => [s] | _ => [] end)
    (trace (snd (store (answers (Js.lit "Acme") [] (Js.lit "X") [] [] []) (sha256Hex [])
                   (ready Sample.one_sided)))) =
    [Begin; InsertTenant (Js.lit "Acme");
     InsertApiKey (Js.lit "t-1") (sha256Hex []) (Js.lit "primary")].
Proof.
  destruct (transaction_in_order (answers (Js.lit "Acme") [] (Js.lit "X") [] [] [])
              (sha256Hex []) (ready Sample.one_sided) _ eq_refl) as (Htr & _ & Ho).
  split; [rewrite Ho; reflexivity | rewrite Htr; reflexivity].
Defined.


Lemma run_trace_witness :
  exists ending,
    trace (snd (main Sample.deadlocked)) =
      [ENewPool (Js.lit "postgres://localhost/app") 1] ++
        List.map EPrompt questions ++
        [EQuery Begin true;
         EQuery (InsertTenant (Js.lit "Acme")) true;
         EQuery (InsertApiKey (Js.lit "t-1") (sha256Hex (key_of Sample.deadlocked))
                   (Js.lit "primary")) true;
         EQuery (UpsertTenantSecret (Js.lit "t-1") (Js.lit "key-1") (Js.lit "loc-1")
                   (Js.lit "https://services.leadconnectorhq.com")
                   (Js.lit "2021-07-28")) true;
         EQuery Commit false] ++ ending /\
    ending = [EQuery Rollback true;
              EErr (failure_line (DbError (Js.lit "deadlock detected")));
              EExit 1].
Proof.
  destruct (run_trace Sample.deadlocked (Js.lit " Acme ") [] (Js.lit "key-1")
              (Js.lit "loc-1") [] [] [] [] [] [] [] [] [] eq_refl eq_refl eq_refl)
    as (ending & Htr & Hend).
  exists ending. split; [exact Htr|].
  exact (proj2 Hend).
Defined.

Lemma main_never_rejects_witness :
  fst (main Sample.one_sided) = Exit 1%Z /\
  pool_closed (snd (main Sample.one_sided)) = false.
Proof.
  assert (H : fst (main Sample.one_sided) = Exit 1%Z) by (vm_compute; reflexivity).
  split; [exact H|].
  exact (proj2 (proj2 (proj2 (main_never_rejects Sample.one_sided))) _ H eq_refl).
Defined.

Lemma upsert_always_paired_witness :
  exists evs,
    trace (snd (main Sample.returning)) = trace Sample.returning ++ evs /\
    In (EQuery (UpsertTenantSecret (Js.lit "t-1") (Js.lit "key-1") (Js.lit "loc-1")
                  (Js.lit "https://services.leadconnectorhq.com")
                  (Js.lit "2021-07-28")) true) evs /\
    Js.truthy (Js.lit "key-1") = true /\ Js.truthy (Js.lit "loc-1") = true.
Proof.
  destruct (upsert_always_paired Sample.returning) as (evs & Htr & Hall).
  exists evs. split; [exact Htr|].
  assert (Hin : In (EQuery (UpsertTenantSecret (Js.lit "t-1") (Js.lit "key-1")
                              (Js.lit "loc-1")
                              (Js.lit "https://services.leadconnectorhq.com")
                              (Js.lit "2021-07-28")) true) evs).
  { assert (E : trace (snd (main Sample.returning)) = evs) by exact Htr.
    rewrite <- E. vm_compute. tauto. }
  split; [exact Hin | exact (Hall _ _ _ _ _ _ Hin)].
Defined.
